(** * Smart-cart backend: the cashier-code verification flow of [server.js]

    A shallow embedding of the three handlers of [server.js] that touch the
    [CashIntent] and [CashierCodeHistory] collections
    ([POST /cash-intent], [POST /verify-cashier-code], [POST /purchase]),
    over a document store whose collections are lists in store order.
    The read handlers and the [Customer] and [Product] handlers, which make
    one store call each, follow as functions of the collection they read.

    What the handlers obtain from outside is an input of the model:
    - every clock reading ([new Date()], [Date.now()]) is a parameter, one
      per call site, in milliseconds;
    - the token returned by [generateCashierCode()] is a parameter;
    - the store may reject any single call: the world carries a schedule of
      faults, one entry consumed by each store call. *)

From Stdlib Require Import ZArith DecimalString Ascii String.
From stdpp Require Import base tactics option list sorting.

Open Scope Z_scope.
Open Scope string_scope.
Open Scope list_scope.

(** ** Request bodies *)

(** The scalar values a JSON body can carry in a field ([JUndefined] is an
    absent field).  A number [JNum n] stands for an integer JavaScript holds
    exactly, [|n| <= 2^53 - 1] (see [safe_integer]), which [String] prints as
    plain decimal digits; fractions and greater numbers, which arrive rounded
    and print in other forms, are not represented. *)
Inductive scalar : Type :=
  | JUndefined
  | JNull
  | JBool (b : bool)
  | JNum (n : Z)
  | JStr (s : string).

(** JavaScript truthiness, the negation of [!v]. *)
Definition truthy (v : scalar) : bool :=
  match v with
  | JUndefined | JNull => false
  | JBool b => b
  | JNum n => negb (n =? 0)%Z
  | JStr s => negb (s =? "")%string
  end.

(** [String(v)]. *)
Definition js_String (v : scalar) : string :=
  match v with
  | JUndefined => "undefined"
  | JNull => "null"
  | JBool true => "true"
  | JBool false => "false"
  | JNum n => NilZero.string_of_int (Z.to_int n)
  | JStr s => s
  end.

(** [v === s] for a string literal [s]. *)
Definition strict_eq_str (v : scalar) (s : string) : bool :=
  match v with
  | JStr t => (t =? s)%string
  | _ => false
  end.

(** [req.body], with the fields the three handlers destructure.  [products]
    is absent or an array of lines (an array is truthy even when empty).
    The other fields are scalars: an object or an array in their place, which
    [express.json()] also lets through, would reach the filters as a query
    operator and can make [String(..)] throw, and is not represented. *)
Record body : Type := Body {
  b_name : scalar;
  b_mobile : scalar;
  b_email : scalar;
  b_products : option (list string);
  b_paymentMethod : scalar;
  b_cashierCode : scalar
}.

(** What [res.status(..).json({..})] sends; [res.json] alone sends 200. *)
Record response : Type := Response {
  status : nat;
  success : bool;
  message : option string;
  error : option string;
  r_cashierCode : option string
}.

(** ** Documents *)

(** Modelled from the spec: the schema of [./models/CashIntent] (name,
    mobile and code are text, the two time stamps are dates); the fields are
    the ones [POST /cash-intent] writes. *)
Record CashIntent : Type := MkCashIntent {
  ci_name : string;
  ci_mobile : string;
  ci_cashierCode : string;
  ci_date : Z;
  ci_expiresAt : Z
}.

(** Modelled from the spec: the schema of [./models/CashierCodeHistory]
    (code, mobile, verified flag defaulting to false, verification time
    stamp, creation time stamp). *)
Record CashierCodeHistory : Type := MkHistory {
  h_cashierCode : string;
  h_mobile : string;
  h_verified : bool;
  h_verifiedAt : option Z;
  h_createdAt : Z
}.

(** The document [new Purchase({..})] builds in [POST /purchase]. *)
Record Purchase : Type := MkPurchase {
  p_name : scalar;
  p_mobile : scalar;
  p_products : option (list string);
  p_paymentMethod : scalar;
  p_cashierCode : scalar
}.

(** ** Collections: lists of documents in store order *)

Section Collection.
Context {A : Type}.

(** [findOne(filter)]: the first document the filter accepts. *)
Fixpoint findOne (f : A -> bool) (l : list A) : option A :=
  match l with
  | [] => None
  | d :: l' => if f d then Some d else findOne f l'
  end.

(** [deleteOne(filter)]: removes the first document the filter accepts,
    nothing when there is none. *)
Fixpoint deleteOne (f : A -> bool) (l : list A) : list A :=
  match l with
  | [] => []
  | d :: l' => if f d then l' else d :: deleteOne f l'
  end.

(** [updateOne(filter, {$set: ..})]: applies the update to the first
    document the filter accepts, nothing when there is none. *)
Fixpoint updateOne (f : A -> bool) (u : A -> A) (l : list A) : list A :=
  match l with
  | [] => []
  | d :: l' => if f d then u d :: l' else d :: updateOne f u l'
  end.

(** [create(doc)] and [doc.save()] of a new document: appended. *)
Definition create (d : A) (l : list A) : list A := l ++ [d].

(** [findOneAndUpdate(filter, update, {upsert: true})]: updates the first
    document the filter accepts, and inserts [fresh] when there is none. *)
Definition findOneAndUpdate (f : A -> bool) (u : A -> A) (fresh : A)
    (l : list A) : list A :=
  match findOne f l with
  | Some _ => updateOne f u l
  | None => create fresh l
  end.

(** Position of the first document the filter accepts. *)
Fixpoint firstIndex (f : A -> bool) (l : list A) : option nat :=
  match l with
  | [] => None
  | d :: l' => if f d then Some 0%nat else S <$> firstIndex f l'
  end.

(** Position of the last document the filter accepts. *)
Fixpoint lastIndex (f : A -> bool) (l : list A) : option nat :=
  match l with
  | [] => None
  | d :: l' =>
      match lastIndex f l' with
      | Some i => Some (S i)
      | None => if f d then Some 0%nat else None
      end
  end.

(** Number of documents the filter accepts. *)
Definition countDocuments (f : A -> bool) (l : list A) : nat :=
  length (List.filter f l).
End Collection.

(** ** The world: store, fault schedule, log of store calls *)

Record store : Type := Store {
  intents : list CashIntent;
  history : list CashierCodeHistory;
  purchases : list Purchase
}.

Definition empty_store : store :=
  {| intents := []; history := []; purchases := [] |}.

Inductive collection : Type := CashIntentC | CashierCodeHistoryC | PurchaseC.
Inductive operation : Type :=
  | OpFindOne | OpDeleteOne | OpUpdateOne | OpFindOneAndUpdate | OpCreate | OpSave.

Record world : Type := World {
  db : store;
  faults : list (option string);  (* [Some e]: the next call throws [e] *)
  calls : list (collection * operation)  (* store calls made so far *)
}.

(** ** Handlers run in a state-and-exception monad over the world *)

Inductive outcome (A : Type) : Type :=
  | Ok (a : A)
  | Throw (err : string).
Arguments Ok {A} a.
Arguments Throw {A} err.

Definition M (A : Type) : Type := world -> outcome A * world.

Definition ret {A} (a : A) : M A := fun w => (Ok a, w).

Definition bind {A B} (m : M A) (k : A -> M B) : M B := fun w =>
  match m w with
  | (Ok a, w') => k a w'
  | (Throw e, w') => (Throw e, w')
  end.

(** [try { m } catch (err) { h err }]. *)
Definition try_catch {A} (m : M A) (h : string -> M A) : M A := fun w =>
  match m w with
  | (Ok a, w') => (Ok a, w')
  | (Throw e, w') => h e w'
  end.

Declare Scope handler_scope.
Delimit Scope handler_scope with handler.
Notation "'await' x <- m ; k" := (bind m (fun x => k))
  (at level 10, x name, m at level 100, k at level 200) : handler_scope.
Open Scope handler_scope.

(** One awaited store call: it is logged, takes the next entry of the fault
    schedule, and either throws it or runs [f] on the store. *)
Definition store_call {A} (c : collection) (o : operation)
    (f : store -> A * store) : M A := fun w =>
  let fs := tail (faults w) in
  let cs := calls w ++ [(c, o)] in
  match faults w with
  | Some e :: _ => (Throw e, {| db := db w; faults := fs; calls := cs |})
  | _ => let '(a, s) := f (db w) in (Ok a, {| db := s; faults := fs; calls := cs |})
  end.

Definition set_intents (l : list CashIntent) (s : store) : store :=
  {| intents := l; history := history s; purchases := purchases s |}.
Definition set_history (l : list CashierCodeHistory) (s : store) : store :=
  {| intents := intents s; history := l; purchases := purchases s |}.
Definition set_purchases (l : list Purchase) (s : store) : store :=
  {| intents := intents s; history := history s; purchases := l |}.

Definition CashIntent_findOne (f : CashIntent -> bool) : M (option CashIntent) :=
  store_call CashIntentC OpFindOne (fun s => (findOne f (intents s), s)).

Definition CashIntent_deleteOne (f : CashIntent -> bool) : M unit :=
  store_call CashIntentC OpDeleteOne
    (fun s => (tt, set_intents (deleteOne f (intents s)) s)).

Definition CashIntent_findOneAndUpdate (f : CashIntent -> bool)
    (u : CashIntent -> CashIntent) (fresh : CashIntent) : M unit :=
  store_call CashIntentC OpFindOneAndUpdate
    (fun s => (tt, set_intents (findOneAndUpdate f u fresh (intents s)) s)).

Definition CashierCodeHistory_create (d : CashierCodeHistory) : M unit :=
  store_call CashierCodeHistoryC OpCreate
    (fun s => (tt, set_history (create d (history s)) s)).

Definition CashierCodeHistory_updateOne (f : CashierCodeHistory -> bool)
    (u : CashierCodeHistory -> CashierCodeHistory) : M unit :=
  store_call CashierCodeHistoryC OpUpdateOne
    (fun s => (tt, set_history (updateOne f u (history s)) s)).

Definition Purchase_save (d : Purchase) : M unit :=
  store_call PurchaseC OpSave
    (fun s => (tt, set_purchases (create d (purchases s)) s)).

(** ** Filters and updates of the handlers *)

(** Modelled from the spec: [mobile] and [name] are text in the schemas, so
    a (truthy) scalar given for such a path, in a filter or in a document,
    is cast to its text. *)
Definition castString (v : scalar) : string := js_String v.

(** [{ mobile }] *)
Definition by_mobile (m : string) (i : CashIntent) : bool :=
  (ci_mobile i =? m)%string.

(** [{ mobile, cashierCode: String(cashierCode) }] *)
Definition by_mobile_code (m c : string) (i : CashIntent) : bool :=
  (ci_mobile i =? m)%string && (ci_cashierCode i =? c)%string.

(** [{ mobile, cashierCode: String(cashierCode), verified: false }] *)
Definition unverified (m c : string) (h : CashierCodeHistory) : bool :=
  (h_mobile h =? m)%string && (h_cashierCode h =? c)%string
  && negb (h_verified h).

(** [{ $set: { verified: true, verifiedAt: new Date() } }] *)
Definition set_verified (t : Z) (h : CashierCodeHistory) : CashierCodeHistory :=
  {| h_cashierCode := h_cashierCode h; h_mobile := h_mobile h;
     h_verified := true; h_verifiedAt := Some t; h_createdAt := h_createdAt h |}.

(** The bytes of the two marks that start the messages of
    [/verify-cashier-code] in the source file. *)
Definition cross_mark : string :=
  String "195" (String "162" (String "197" (String "146" EmptyString))).
Definition check_mark : string :=
  String "195" (String "162" (String "197" (String "147"
    (String "226" (String "128" (String "166" EmptyString)))))).

Definition msg_invalid : string := (cross_mark ++ " Invalid code")%string.
Definition msg_expired : string := (cross_mark ++ " Code expired")%string.
Definition msg_verified : string := (check_mark ++ " Code verified")%string.

(** [res.status(st).json({ success, message })] *)
Definition reply (st : nat) (ok : bool) (msg : string) : response :=
  {| status := st; success := ok; message := Some msg; error := None;
     r_cashierCode := None |}.

(** [res.status(500).json({ success: false, message, error: err.message })] *)
Definition reply_error (msg err : string) : response :=
  {| status := 500; success := false; message := Some msg; error := Some err;
     r_cashierCode := None |}.

Definition fifteen_minutes : Z := 15 * 60 * 1000.

(** ** The handlers *)

(** [app.post('/cash-intent', ..)].  [generated] is what
    [generateCashierCode()] returned; [t_date] is the reading of
    [new Date()] for [date], [t_now] the one of [Date.now()] for
    [expiresAt], [t_created] the one the history row is stamped with.
    The update sets the five fields of the record, so the updated document
    and the inserted one are both [doc]. *)
Definition post_cash_intent (generated : string) (t_date t_now t_created : Z)
    (b : body) : M response :=
  let name := b_name b in
  let mobile := b_mobile b in
  if negb (truthy name) || negb (truthy mobile) then
    ret (reply 400 false "Missing fields")
  else
    let cashierCode := generated in
    let doc :=
      {| ci_name := castString name; ci_mobile := castString mobile;
         ci_cashierCode := cashierCode; ci_date := t_date;
         ci_expiresAt := t_now + fifteen_minutes |} in
    try_catch
      (await _ <- CashIntent_findOneAndUpdate
                    (by_mobile (castString mobile)) (fun _ => doc) doc;
       await _ <- CashierCodeHistory_create
                    {| h_cashierCode := cashierCode;
                       h_mobile := castString mobile;
                       h_verified := false; h_verifiedAt := None;
                       h_createdAt := t_created |};
       ret {| status := 200; success := true; message := None;
              error := None; r_cashierCode := Some cashierCode |})
      (fun err => ret (reply_error "Error saving cash intent" err)).

(** [app.post('/verify-cashier-code', ..)].  [t_check] is the reading of
    [new Date()] compared with [expiresAt], [t_verified] the one written to
    [verifiedAt]. *)
Definition post_verify_cashier_code (t_check t_verified : Z) (b : body)
    : M response :=
  let mobile := b_mobile b in
  let cashierCode := b_cashierCode b in
  if negb (truthy mobile) || negb (truthy cashierCode) then
    ret (reply 400 false "Missing mobile or code")
  else
    try_catch
      (await intent <- CashIntent_findOne
                         (by_mobile_code (castString mobile)
                                         (js_String cashierCode));
       match intent with
       | None => ret (reply 401 false msg_invalid)
       | Some i =>
           if (t_check >? ci_expiresAt i)%Z then
             await _ <- CashIntent_deleteOne (by_mobile (castString mobile));
             ret (reply 401 false msg_expired)
           else
             await _ <- CashIntent_deleteOne (by_mobile (castString mobile));
             await _ <- CashierCodeHistory_updateOne
                          (unverified (castString mobile)
                                      (js_String cashierCode))
                          (set_verified t_verified);
             ret (reply 200 true msg_verified)
       end)
      (fun err => ret (reply_error (cross_mark ++ " Server error")%string err)).

(** [app.post('/purchase', ..)]. *)
Definition post_purchase (b : body) : M response :=
  let name := b_name b in
  let mobile := b_mobile b in
  let paymentMethod := b_paymentMethod b in
  let cashierCode := b_cashierCode b in
  let products := b_products b in
  if negb (truthy name) || negb (truthy mobile)
     || negb (bool_decide (is_Some products)) || negb (truthy paymentMethod) then
    ret (reply 400 false "Missing fields")
  else
    try_catch
      (let purchase :=
         {| p_name := name; p_mobile := mobile; p_products := products;
            p_paymentMethod := paymentMethod;
            p_cashierCode :=
              if strict_eq_str paymentMethod "cash" then cashierCode
              else JNull |} in
       await _ <- (if strict_eq_str paymentMethod "cash"
                   then CashIntent_deleteOne (by_mobile (castString mobile))
                   else ret tt);
       await _ <- Purchase_save purchase;
       ret (reply 200 true "Purchase saved"))
      (fun err => ret (reply_error "Error saving purchase" err)).

(** ** Requests, the invariant, and what the claims talk about *)

(** The three operations of the flow, with what each takes from outside. *)
Inductive request : Type :=
  | RequestIntent (generated : string) (t_date t_now t_created : Z) (b : body)
  | VerifyCode (t_check t_verified : Z) (b : body)
  | SavePurchase (b : body).

Definition handle (q : request) : M response :=
  match q with
  | RequestIntent g t1 t2 t3 b => post_cash_intent g t1 t2 t3 b
  | VerifyCode t1 t2 b => post_verify_cashier_code t1 t2 b
  | SavePurchase b => post_purchase b
  end.

(** At most one [CashIntent] per mobile. *)
Definition unique_mobile (l : list CashIntent) : Prop :=
  NoDup (ci_mobile <$> l).

Definition unique_store (s : store) : Prop := unique_mobile (intents s).

(** The stores the handlers can build from the empty one, whatever the
    store's faults. *)
Inductive reachable : store -> Prop :=
  | reach_empty : reachable empty_store
  | reach_step s q fs cs :
      reachable s ->
      reachable (db (handle q {| db := s; faults := fs; calls := cs |}).2).

(** The next [n] store calls meet no fault. *)
Fixpoint healthy (n : nat) (fs : list (option string)) {struct fs} : bool :=
  match fs, n with
  | [], _ => true
  | _ :: _, O => true
  | None :: fs', S n' => healthy n' fs'
  | Some _ :: _, S _ => false
  end.

(** The update of the success path as the specification words it: the most
    recent matching row, that is the last one in store order, is the one
    updated. *)
Definition update_most_recent {A} (f : A -> bool) (u : A -> A) (l : list A)
    : list A :=
  match lastIndex f l with
  | Some k => alter u k l
  | None => l
  end.

(** Rows in the order they were created. *)
Definition by_creation (l : list CashierCodeHistory) : Prop :=
  forall j k a b, (j <= k)%nat -> l !! j = Some a -> l !! k = Some b ->
    h_createdAt a <= h_createdAt b.

(** The mobile and the code a request is about, as the filters see them. *)
Definition mobile_of (b : body) : string := castString (b_mobile b).
Definition code_of (b : body) : string := js_String (b_cashierCode b).

(** A store property every store call of a computation maintains. *)
Definition keeps {A} (I : store -> Prop) (m : M A) : Prop :=
  forall w, I (db w) -> I (db (m w).2).

(** The world after the success path of [POST /verify-cashier-code]. *)
Definition verified_world (t_verified : Z) (b : body) (w : world) : world :=
  {| db :=
       {| intents := deleteOne (by_mobile (mobile_of b)) (intents (db w));
          history :=
            updateOne (unverified (mobile_of b) (code_of b))
              (set_verified t_verified) (history (db w));
          purchases := purchases (db w) |};
     faults := tail (tail (tail (faults w)));
     calls := calls w ++ [(CashIntentC, OpFindOne); (CashIntentC, OpDeleteOne);
                          (CashierCodeHistoryC, OpUpdateOne)] |}.

(** The intent [POST /cash-intent] writes. *)
Definition issued_intent (g : string) (t_date t_now : Z) (b : body) : CashIntent :=
  {| ci_name := castString (b_name b); ci_mobile := mobile_of b;
     ci_cashierCode := g; ci_date := t_date;
     ci_expiresAt := t_now + fifteen_minutes |}.

(** The world after a [POST /cash-intent] that met no fault. *)
Definition issued_world (g : string) (t_date t_now t_created : Z) (b : body)
    (w : world) : world :=
  {| db :=
       {| intents :=
            findOneAndUpdate (by_mobile (mobile_of b))
              (fun _ => issued_intent g t_date t_now b)
              (issued_intent g t_date t_now b) (intents (db w));
          history :=
            create (MkHistory g (mobile_of b) false None t_created)
              (history (db w));
          purchases := purchases (db w) |};
     faults := tail (tail (faults w));
     calls := calls w ++ [(CashIntentC, OpFindOneAndUpdate);
                          (CashierCodeHistoryC, OpCreate)] |}.

(** ** Worlds used in the examples *)

Definition alice : body :=
  {| b_name := JStr "Alice"; b_mobile := JStr "9990001111";
     b_email := JUndefined; b_products := None;
     b_paymentMethod := JUndefined; b_cashierCode := JStr "482913" |}.

Definition fresh_world : world :=
  {| db := empty_store; faults := []; calls := [] |}.

Definition bob_intent : CashIntent :=
  MkCashIntent "Bob" "9990001111" "111111" 1000 901000.

Definition issued_once : world :=
  {| db := {| intents := [MkCashIntent "Alice" "9990001111" "482913" 1000 901000];
              history := [MkHistory "482913" "9990001111" false None 1000];
              purchases := [] |};
     faults := []; calls := [] |}.

(** Two unverified rows for the same mobile and code, as two requests that
    drew the same code leave them. *)
Definition twice_issued : world :=
  {| db := {| intents := [MkCashIntent "Alice" "9990001111" "482913" 2000 902000];
              history := [MkHistory "482913" "9990001111" false None 1000;
                          MkHistory "482913" "9990001111" false None 2000];
              purchases := [] |};
     faults := []; calls := [] |}.

Definition cash_purchase : body :=
  {| b_name := JStr "Alice"; b_mobile := JStr "9990001111";
     b_email := JUndefined; b_products := Some ["milk"];
     b_paymentMethod := JStr "cash"; b_cashierCode := JStr "482913" |}.

(** ** The other handlers of [server.js] *)

(** Each of the handlers below awaits a single store call; [fault] is what
    that call throws, if it throws. *)

(** What these handlers send: [status], [success], the payload member
    ([product], [intents], [history], ..), [message] and [error]. *)
Record answer (P : Type) : Type := Answer {
  a_status : nat;
  a_success : bool;
  a_payload : option P;
  a_message : option string;
  a_error : option string
}.
Arguments Answer {P} _ _ _ _ _.
Arguments a_status {P} _.
Arguments a_success {P} _.
Arguments a_payload {P} _.
Arguments a_message {P} _.
Arguments a_error {P} _.

(** [res.json({ success: true, <payload> })] *)
Definition send {P} (p : P) : answer P :=
  {| a_status := 200; a_success := true; a_payload := Some p;
     a_message := None; a_error := None |}.

(** [res.status(st).json({ success: false, message })] *)
Definition refuse {P} (st : nat) (msg : string) : answer P :=
  {| a_status := st; a_success := false; a_payload := None;
     a_message := Some msg; a_error := None |}.

(** [res.status(500).json({ success: false, message, error: err.message })] *)
Definition refuse_error {P} (msg err : string) : answer P :=
  {| a_status := 500; a_success := false; a_payload := None;
     a_message := Some msg; a_error := Some err |}.

(** The order [.sort({ key: -1 })] asks for: greater keys first. *)
Definition newer_first {A} (key : A -> Z) (x y : A) : Prop := key y <= key x.

#[global] Instance newer_first_dec {A} (key : A -> Z) (x y : A) :
  Decision (newer_first key x y) := Z_le_dec (key y) (key x).

(** [find(..).sort({ key: -1 })] on the documents [find] selected.  Where
    documents of equal key go is left open by the store; here they go where
    the merge sort puts them. *)
Definition sort_desc {A} (key : A -> Z) (l : list A) : list A :=
  merge_sort (newer_first key) l.

(** [{ paymentMethod: 'cash' }], [{ paymentMethod: 'online' }] *)
Definition paid_by (method : string) (p : Purchase) : bool :=
  strict_eq_str (p_paymentMethod p) method.

(** [app.get('/cash-intents', ..)] *)
Definition get_cash_intents (fault : option string) (s : store)
    : answer (list CashIntent) :=
  match fault with
  | None => send (sort_desc ci_date (intents s))
  | Some err => refuse_error "Error fetching cash intents" err
  end.

(** [app.get('/cashier-code-history', ..)] *)
Definition get_cashier_code_history (fault : option string) (s : store)
    : answer (list CashierCodeHistory) :=
  match fault with
  | None => send (sort_desc h_createdAt (history s))
  | Some err => refuse_error "Error fetching code history" err
  end.

Section PurchaseListings.
(** The [date] of a stored purchase, which [POST /purchase] does not write
    and the schema stamps. *)
Variable p_date : Purchase -> Z.

(** [app.get('/purchase-history', ..)] *)
Definition get_purchase_history (fault : option string) (s : store)
    : answer (list Purchase) :=
  match fault with
  | None => send (sort_desc p_date (purchases s))
  | Some err => refuse_error "Error fetching history" err
  end.

(** [app.get('/purchases/cash', ..)] *)
Definition get_purchases_cash (fault : option string) (s : store)
    : answer (list Purchase) :=
  match fault with
  | None => send (sort_desc p_date (List.filter (paid_by "cash") (purchases s)))
  | Some err => refuse_error "Error fetching cash purchases" err
  end.

(** [app.get('/purchases/online', ..)] *)
Definition get_purchases_online (fault : option string) (s : store)
    : answer (list Purchase) :=
  match fault with
  | None => send (sort_desc p_date (List.filter (paid_by "online") (purchases s)))
  | Some err => refuse_error "Error fetching online purchases" err
  end.
End PurchaseListings.

Section Products.
(** The [Product] documents and their [barcode], a text. *)
Variables (Product : Type) (barcode : Product -> string).

(** [app.get('/product/:barcode', ..)]; [param] is [req.params.barcode]. *)
Definition get_product (fault : option string) (products : list Product)
    (param : string) : answer Product :=
  match fault with
  | None =>
      match findOne (fun p => (barcode p =? param)%string) products with
      | None => refuse 404 "Product not found"
      | Some product => send product
      end
  | Some err => refuse_error "Server error" err
  end.
End Products.

(** The fields [POST /customer] writes, texts as those of a [CashIntent]. *)
Record Customer : Type := MkCustomer {
  c_name : string;
  c_mobile : string;
  c_email : string
}.

(** [{ key: k }] on a collection whose documents have a text [key]. *)
Definition has_key {A} (key : A -> string) (k : string) (x : A) : bool :=
  (key x =? k)%string.

(** [{ mobile }] on the [Customer] collection *)
Definition by_customer_mobile (m : string) (c : Customer) : bool :=
  has_key c_mobile m c.

(** [app.post('/customer', ..)], on the [Customer] collection. *)
Definition post_customer (fault : option string) (b : body)
    (customers : list Customer) : response * list Customer :=
  let name := b_name b in
  let mobile := b_mobile b in
  let email := b_email b in
  if negb (truthy name) || negb (truthy mobile) || negb (truthy email) then
    (reply 400 false "Missing fields", customers)
  else
    let doc :=
      {| c_name := castString name; c_mobile := castString mobile;
         c_email := castString email |} in
    match fault with
    | None =>
        (reply 200 true "Customer saved",
         findOneAndUpdate (by_customer_mobile (castString mobile))
           (fun _ => doc) doc customers)
    | Some err => (reply_error "Database error" err, customers)
    end.

(** ** What the further properties talk about *)

(** The body of a request, and whether it passes the guard of its handler. *)
Definition request_body (q : request) : body :=
  match q with
  | RequestIntent _ _ _ _ b => b
  | VerifyCode _ _ b => b
  | SavePurchase b => b
  end.

Definition passes_guard (q : request) : bool :=
  match q with
  | RequestIntent _ _ _ _ b => truthy (b_name b) && truthy (b_mobile b)
  | VerifyCode _ _ b => truthy (b_mobile b) && truthy (b_cashierCode b)
  | SavePurchase b =>
      truthy (b_name b) && truthy (b_mobile b)
      && bool_decide (is_Some (b_products b)) && truthy (b_paymentMethod b)
  end.

(** The history row [POST /cash-intent] creates. *)
Definition issued_row (g : string) (t_created : Z) (b : body)
    : CashierCodeHistory :=
  {| h_cashierCode := g; h_mobile := mobile_of b; h_verified := false;
     h_verifiedAt := None; h_createdAt := t_created |}.

(** The document [POST /purchase] saves. *)
Definition purchase_doc (b : body) : Purchase :=
  {| p_name := b_name b; p_mobile := b_mobile b; p_products := b_products b;
     p_paymentMethod := b_paymentMethod b;
     p_cashierCode :=
       if strict_eq_str (b_paymentMethod b) "cash" then b_cashierCode b
       else JNull |}.

(** A verified row carries its verification time, an unverified one none. *)
Definition stamped (h : CashierCodeHistory) : Prop :=
  h_verified h = true <-> is_Some (h_verifiedAt h).

(** An intent stored under a name and a mobile that are not empty. *)
Definition named (i : CashIntent) : Prop :=
  ci_mobile i <> "" /\ ci_name i <> "".

(** The numbers [JNum] stands for: a scalar that is no number, or an integer
    JavaScript holds exactly. *)
Definition safe_integer (v : scalar) : bool :=
  match v with
  | JNum n => (Z.abs n <=? 2 ^ 53 - 1)%Z
  | _ => true
  end.

(** A body that differs from [b] only in carrying the code as its text. *)
Definition with_text_code (b : body) : body :=
  {| b_name := b_name b; b_mobile := b_mobile b; b_email := b_email b;
     b_products := b_products b; b_paymentMethod := b_paymentMethod b;
     b_cashierCode := JStr (js_String (b_cashierCode b)) |}.

Section CustomerListing.
(** The [createdAt] of a stored customer, which [POST /customer] does not
    write. *)
Variable c_createdAt : Customer -> Z.

(** [app.get('/customers', ..)] *)
Definition get_customers (fault : option string) (customers : list Customer)
    : answer (list Customer) :=
  match fault with
  | None => send (sort_desc c_createdAt customers)
  | Some err => refuse_error "Error fetching customers" err
  end.
End CustomerListing.

(** The stores a request can leave behind, according to how many of its
    store calls went through. *)
Definition effects (q : request) (s : store) : list store :=
  let m := mobile_of (request_body q) in
  let deleted := set_intents (deleteOne (by_mobile m) (intents s)) s in
  match q with
  | RequestIntent g t_date t_now t_created b =>
      let doc := issued_intent g t_date t_now b in
      let upserted :=
        set_intents
          (findOneAndUpdate (by_mobile m) (fun _ => doc) doc (intents s)) s in
      [s; upserted;
       set_history (create (issued_row g t_created b) (history s)) upserted]
  | VerifyCode t_check t_verified b =>
      [s; deleted;
       set_history
         (updateOne (unverified m (code_of b)) (set_verified t_verified)
            (history s)) deleted]
  | SavePurchase b =>
      [s; deleted;
       set_purchases (create (purchase_doc b) (purchases s)) s;
       set_purchases (create (purchase_doc b) (purchases s)) deleted]
  end.

(** * Facts about collections *)

Section CollectionFacts.
Context {A : Type} (f : A -> bool).
Implicit Types (l : list A) (d : A) (k : nat).

Lemma findOne_Some l d :
  findOne f l = Some d -> d ∈ l /\ f d = true.
Proof.
  induction l as [|x l IH]; simpl; [discriminate|].
  destruct (f x) eqn:Hx.
  - intros [= <-]. split; [left|done].
  - intros H. destruct (IH H). split; [by right|done].
Qed.

Lemma findOne_None l :
  findOne f l = None <-> forall d, d ∈ l -> f d = false.
Proof.
  induction l as [|x l IH]; simpl.
  - split; [|done]. intros _ d Hd. inversion Hd.
  - destruct (f x) eqn:Hx.
    + split; [discriminate|]. intros H.
      rewrite (H x) in Hx; [discriminate|left].
    + rewrite IH. split.
      * intros H d Hd. inversion Hd; subst; auto.
      * intros H d Hd. apply H. by right.
Qed.

Lemma firstIndex_Some l k :
  firstIndex f l = Some k <->
  exists d, l !! k = Some d /\ f d = true /\
    forall j d', (j < k)%nat -> l !! j = Some d' -> f d' = false.
Proof.
  revert k. induction l as [|x l IH]; intros k; simpl.
  - split; [discriminate|]. intros (d & Hd & _). discriminate.
  - destruct (f x) eqn:Hx.
    + split.
      * intros [= <-]. exists x. repeat split; [done|]. intros j d' Hj. lia.
      * intros (d & Hd & Hfd & Hmin). destruct k as [|k]; [done|].
        rewrite (Hmin 0%nat x) in Hx; [discriminate|lia|done].
    + destruct (firstIndex f l) as [i|] eqn:Hi; simpl.
      * split.
        -- intros [= <-]. destruct (proj1 (IH i) eq_refl) as (d & Hd & Hfd & Hmin).
           exists d. repeat split; [done..|].
           intros [|j] d' Hj; simpl; [by intros [= <-]|].
           apply Hmin. lia.
        -- intros (d & Hd & Hfd & Hmin). destruct k as [|k].
           { simpl in Hd. injection Hd as ->. congruence. }
           f_equal. assert (Some i = Some k) as [= ->]; [|done].
           apply IH. exists d. repeat split; [done..|].
           intros j d' Hj Hl. apply (Hmin (S j)); [lia|done].
      * split; [discriminate|].
        intros (d & Hd & Hfd & Hmin). destruct k as [|k].
        { simpl in Hd. injection Hd as ->. congruence. }
        assert (None = Some k) as Hk; [|discriminate].
        apply IH. exists d. repeat split; [done..|].
        intros j d' Hj Hl. apply (Hmin (S j)); [lia|done].
Qed.

Lemma firstIndex_None l :
  firstIndex f l = None <-> findOne f l = None.
Proof.
  induction l as [|x l IH]; simpl; [done|].
  destruct (f x); [done|].
  rewrite <- IH. destruct (firstIndex f l); simpl; split; congruence.
Qed.

Lemma findOne_firstIndex l :
  findOne f l = firstIndex f l ≫= (l !!.).
Proof.
  induction l as [|x l IH]; simpl; [done|].
  destruct (f x); [done|]. rewrite IH.
  by destruct (firstIndex f l).
Qed.

Lemma updateOne_alter (u : A -> A) l :
  updateOne f u l =
  match firstIndex f l with Some k => alter u k l | None => l end.
Proof.
  induction l as [|x l IH]; simpl; [done|].
  destruct (f x); [done|]. rewrite IH.
  by destruct (firstIndex f l).
Qed.

Lemma deleteOne_delete l :
  deleteOne f l =
  match firstIndex f l with Some k => delete k l | None => l end.
Proof.
  induction l as [|x l IH]; simpl; [done|].
  destruct (f x); [done|]. rewrite IH.
  by destruct (firstIndex f l).
Qed.

Lemma lastIndex_Some l k :
  lastIndex f l = Some k ->
  exists d, l !! k = Some d /\ f d = true /\
    forall j d', (k < j)%nat -> l !! j = Some d' -> f d' = false.
Proof.
  revert k. induction l as [|x l IH]; intros k; simpl; [discriminate|].
  destruct (lastIndex f l) as [i|] eqn:Hi.
  - intros [= <-]. destruct (IH i eq_refl) as (d & Hd & Hfd & Hmax).
    exists d. repeat split; [done..|].
    intros [|j] d' Hj; [lia|]. simpl. apply Hmax. lia.
  - destruct (f x) eqn:Hx; [|discriminate].
    intros [= <-]. exists x. repeat split; [done..|].
    intros [|j] d' Hj; [lia|]. simpl. intros Hl.
    clear IH. revert j d' Hl Hj.
    induction l as [|y l IHl]; intros j d' Hl Hj; [done|].
    simpl in Hi. destruct (lastIndex f l) eqn:Hl'; [discriminate|].
    destruct (f y) eqn:Hy; [discriminate|].
    destruct j as [|j]; simpl in Hl; [congruence|].
    apply (IHl eq_refl j); [done|lia].
Qed.

Lemma deleteOne_sublist l : deleteOne f l `sublist_of` l.
Proof.
  induction l as [|x l IH]; simpl; [done|].
  destruct (f x); [by apply sublist_cons|by apply sublist_skip].
Qed.

Lemma count_deleteOne l d :
  findOne f l = Some d ->
  S (countDocuments f (deleteOne f l)) = countDocuments f l.
Proof.
  unfold countDocuments.
  induction l as [|x l IH]; simpl; [discriminate|].
  destruct (f x) eqn:Hx; simpl; [done|].
  rewrite Hx. apply IH.
Qed.

(** Documents another filter [g] selects, disjoint from [f], are not
    touched by a [deleteOne] or an [updateOne] on [f]. *)
Lemma filter_deleteOne_other (g : A -> bool) l :
  (forall d, g d = true -> f d = false) ->
  List.filter g (deleteOne f l) = List.filter g l.
Proof.
  intros Hdis. induction l as [|x l IH]; simpl; [done|].
  destruct (f x) eqn:Hx; simpl.
  - destruct (g x) eqn:Hg; [|done]. rewrite (Hdis x Hg) in Hx. discriminate.
  - by rewrite IH.
Qed.
End CollectionFacts.

(** * The invariant on the [CashIntent] collection *)

Lemma by_mobile_true m i : by_mobile m i = true <-> ci_mobile i = m.
Proof. unfold by_mobile. apply String.eqb_eq. Qed.

Lemma by_mobile_false m i : by_mobile m i = false <-> ci_mobile i <> m.
Proof. unfold by_mobile. apply String.eqb_neq. Qed.

Lemma by_mobile_code_true m c i :
  by_mobile_code m c i = true <-> ci_mobile i = m /\ ci_cashierCode i = c.
Proof.
  unfold by_mobile_code. rewrite andb_true_iff, !String.eqb_eq. tauto.
Qed.

Lemma by_mobile_code_by_mobile m c i :
  by_mobile_code m c i = true -> by_mobile m i = true.
Proof. rewrite by_mobile_code_true, by_mobile_true. tauto. Qed.

Lemma unique_mobile_cons i l :
  unique_mobile (i :: l) <->
  (forall j, j ∈ l -> by_mobile (ci_mobile i) j = false) /\ unique_mobile l.
Proof.
  unfold unique_mobile. rewrite fmap_cons, NoDup_cons, list_elem_of_fmap.
  split; intros [H1 H2]; (split; [|done]).
  - intros j Hj. apply by_mobile_false. intros E. apply H1. by exists j.
  - intros (j & E & Hj). apply H1 in Hj. apply by_mobile_false in Hj. congruence.
Qed.

Lemma unique_mobile_deleteOne f l :
  unique_mobile l -> unique_mobile (deleteOne f l).
Proof.
  unfold unique_mobile. intros H.
  eapply sublist_NoDup; [exact H|].
  apply fmap_sublist, deleteOne_sublist.
Qed.

(** Under the invariant, [deleteOne({ mobile })] leaves no intent for the
    mobile. *)
Lemma unique_mobile_deleteOne_gone m l :
  unique_mobile l -> findOne (by_mobile m) (deleteOne (by_mobile m) l) = None.
Proof.
  induction l as [|i l IH]; simpl; [done|].
  intros [Hi Hl]%unique_mobile_cons.
  destruct (by_mobile m i) eqn:Hm; simpl.
  - apply by_mobile_true in Hm. subst m. by apply findOne_None.
  - rewrite Hm. by apply IH.
Qed.

(** Under the invariant, the intent [findOne({ mobile, cashierCode })]
    returns is the one [deleteOne({ mobile })] removes. *)
Lemma unique_mobile_deleteOne_found m c l i :
  unique_mobile l ->
  findOne (by_mobile_code m c) l = Some i ->
  exists l1 l2, l = l1 ++ i :: l2 /\ deleteOne (by_mobile m) l = l1 ++ l2.
Proof.
  induction l as [|x l IH]; simpl; [discriminate|].
  intros [Hx Hl]%unique_mobile_cons.
  destruct (by_mobile_code m c x) eqn:Hmc.
  - intros [= ->]. rewrite (by_mobile_code_by_mobile _ _ _ Hmc).
    by exists [], l.
  - intros Hfind. destruct (by_mobile m x) eqn:Hm.
    + apply by_mobile_true in Hm. subst m.
      apply findOne_Some in Hfind as [Hin Hi].
      apply by_mobile_code_by_mobile in Hi. rewrite (Hx i Hin) in Hi.
      discriminate.
    + destruct (IH Hl Hfind) as (l1 & l2 & -> & ->).
      by exists (x :: l1), l2.
Qed.

(** What [deleteOne({ mobile })] does once [findOne({ mobile, code })] has
    found [i]. *)
Lemma deleteOne_after_found m c l i :
  findOne (by_mobile_code m c) l = Some i ->
  S (countDocuments (by_mobile m) (deleteOne (by_mobile m) l)) =
    countDocuments (by_mobile m) l
  /\ (unique_mobile l ->
      (exists l1 l2, l = l1 ++ i :: l2 /\ deleteOne (by_mobile m) l = l1 ++ l2)
      /\ findOne (by_mobile m) (deleteOne (by_mobile m) l) = None).
Proof.
  intros Hfind. split.
  - destruct (findOne (by_mobile m) l) as [j|] eqn:E;
      [by eapply count_deleteOne|].
    rewrite findOne_None in E. apply findOne_Some in Hfind as [Hin Hi].
    apply by_mobile_code_by_mobile in Hi. rewrite (E i Hin) in Hi.
    discriminate.
  - intros Huniq. split.
    + by eapply unique_mobile_deleteOne_found.
    + by apply unique_mobile_deleteOne_gone.
Qed.

Lemma findOne_code_None m c l :
  findOne (by_mobile m) l = None -> findOne (by_mobile_code m c) l = None.
Proof.
  rewrite !findOne_None. intros H d Hd. specialize (H d Hd).
  unfold by_mobile_code. unfold by_mobile in H. by rewrite H.
Qed.

Section Upsert.
Variables (m : string) (doc : CashIntent).
Hypothesis doc_mobile : ci_mobile doc = m.

Lemma updateOne_same_mobiles l :
  ci_mobile <$> updateOne (by_mobile m) (fun _ => doc) l = ci_mobile <$> l.
Proof.
  induction l as [|x l IH]; [done|]. simpl updateOne.
  destruct (by_mobile m x) eqn:Hm; rewrite !fmap_cons.
  - apply by_mobile_true in Hm. by rewrite doc_mobile, Hm.
  - by rewrite IH.
Qed.

Lemma unique_mobile_upsert l :
  unique_mobile l ->
  unique_mobile (findOneAndUpdate (by_mobile m) (fun _ => doc) doc l).
Proof.
  unfold unique_mobile, findOneAndUpdate, create. intros H.
  destruct (findOne (by_mobile m) l) eqn:Hfind.
  - by rewrite updateOne_same_mobiles.
  - rewrite fmap_app. apply NoDup_app. split; [done|]. split.
    + intros x (j & -> & Hj)%list_elem_of_fmap Hin.
      apply list_elem_of_singleton in Hin.
      rewrite findOne_None in Hfind. apply Hfind in Hj.
      apply by_mobile_false in Hj. congruence.
    + apply NoDup_singleton.
Qed.

Lemma filter_none l :
  findOne (by_mobile m) l = None -> List.filter (by_mobile m) l = [].
Proof.
  induction l as [|x l IH]; simpl; [done|].
  destruct (by_mobile m x); [discriminate|]. apply IH.
Qed.

(** After the upsert the intents of the mobile are exactly [doc]. *)
Lemma filter_upsert l :
  unique_mobile l ->
  List.filter (by_mobile m)
    (findOneAndUpdate (by_mobile m) (fun _ => doc) doc l) = [doc].
Proof.
  assert (Hdoc : by_mobile m doc = true) by by apply by_mobile_true.
  unfold findOneAndUpdate, create.
  destruct (findOne (by_mobile m) l) as [c|] eqn:Hfind.
  - assert (Hsome : is_Some (findOne (by_mobile m) l)) by by exists c.
    clear c Hfind. induction l as [|x l IH]; simpl in *;
      [by destruct Hsome|].
    intros [Hx Hl]%unique_mobile_cons.
    destruct (by_mobile m x) eqn:Hm; simpl.
    + rewrite Hdoc. f_equal. apply filter_none, findOne_None.
      apply by_mobile_true in Hm. rewrite <- Hm. exact Hx.
    + rewrite Hm. by apply IH.
  - intros _. rewrite List.filter_app, (filter_none _ Hfind). simpl.
    by rewrite Hdoc.
Qed.

(** Also without the invariant, the first intent of the mobile is [doc]. *)
Lemma findOne_upsert l :
  findOne (by_mobile m)
    (findOneAndUpdate (by_mobile m) (fun _ => doc) doc l) = Some doc.
Proof.
  assert (Hdoc : by_mobile m doc = true) by by apply by_mobile_true.
  unfold findOneAndUpdate, create.
  destruct (findOne (by_mobile m) l) as [c|] eqn:Hfind.
  - assert (Hsome : is_Some (findOne (by_mobile m) l)) by by exists c.
    clear c Hfind. induction l as [|x l IH]; simpl in *;
      [by destruct Hsome|].
    destruct (by_mobile m x) eqn:Hm; simpl; [by rewrite Hdoc|].
    rewrite Hm. by apply IH.
  - induction l as [|x l IH]; simpl in *; [by rewrite Hdoc|].
    destruct (by_mobile m x); [discriminate|]. by apply IH.
Qed.
End Upsert.

(** * Running the handlers *)

Section Keeps.
Context (I : store -> Prop).

Lemma keeps_ret {A} (a : A) : keeps I (ret a).
Proof. by intros w. Qed.

Lemma keeps_bind {A B} (m : M A) (k : A -> M B) :
  keeps I m -> (forall a, keeps I (k a)) -> keeps I (bind m k).
Proof.
  intros Hm Hk w Hw. unfold bind. specialize (Hm w Hw).
  destruct (m w) as [[a|e] w1]; simpl in *; [by apply Hk|done].
Qed.

Lemma keeps_try_catch {A} (m : M A) (h : string -> M A) :
  keeps I m -> (forall e, keeps I (h e)) -> keeps I (try_catch m h).
Proof.
  intros Hm Hh w Hw. unfold try_catch. specialize (Hm w Hw).
  destruct (m w) as [[a|e] w1]; simpl in *; [done|by apply Hh].
Qed.

Lemma keeps_store_call {A} c o (f : store -> A * store) :
  (forall s, I s -> I (f s).2) -> keeps I (store_call c o f).
Proof.
  intros Hf w Hw. unfold store_call.
  destruct (faults w) as [|[e|] fs]; simpl; try done;
    specialize (Hf (db w) Hw); by destruct (f (db w)).
Qed.
End Keeps.

Lemma keeps_unique_findOne f : keeps unique_store (CashIntent_findOne f).
Proof. by apply keeps_store_call. Qed.

Lemma keeps_unique_deleteOne f : keeps unique_store (CashIntent_deleteOne f).
Proof.
  apply keeps_store_call. intros s Hs. by apply unique_mobile_deleteOne.
Qed.

Lemma keeps_unique_upsert m doc :
  ci_mobile doc = m ->
  keeps unique_store
    (CashIntent_findOneAndUpdate (by_mobile m) (fun _ => doc) doc).
Proof.
  intros Hdoc. apply keeps_store_call. intros s Hs.
  by apply unique_mobile_upsert.
Qed.

Lemma keeps_unique_history_create d :
  keeps unique_store (CashierCodeHistory_create d).
Proof. by apply keeps_store_call. Qed.

Lemma keeps_unique_history_updateOne f u :
  keeps unique_store (CashierCodeHistory_updateOne f u).
Proof. by apply keeps_store_call. Qed.

Lemma keeps_unique_purchase_save d : keeps unique_store (Purchase_save d).
Proof. by apply keeps_store_call. Qed.

Create HintDb keeps.
#[local] Hint Resolve keeps_ret keeps_unique_findOne keeps_unique_deleteOne
  keeps_unique_upsert keeps_unique_history_create
  keeps_unique_history_updateOne keeps_unique_purchase_save : keeps.

Ltac keeps_step :=
  match goal with
  | |- keeps _ (try_catch _ _) => apply keeps_try_catch
  | |- keeps _ (bind _ _) => apply keeps_bind
  | |- keeps _ (match ?x with Some _ => _ | None => _ end) => destruct x
  | |- keeps _ (if ?c then _ else _) => destruct c
  | |- forall _, _ => intro
  | |- keeps _ _ => solve [eauto with keeps]
  end.

(** Every handler keeps at most one intent per mobile, whatever the body,
    the clock and the faults of the store. *)
Lemma handle_keeps_unique q : keeps unique_store (handle q).
Proof.
  destruct q as [g t1 t2 t3 b|t1 t2 b|b]; simpl;
    unfold post_cash_intent, post_verify_cashier_code, post_purchase;
    cbv zeta; repeat keeps_step.
Qed.

Lemma reachable_unique s : reachable s -> unique_store s.
Proof.
  induction 1 as [|s q fs cs _ IH].
  - apply NoDup_nil_2.
  - by apply (handle_keeps_unique q {| db := s; faults := fs; calls := cs |}).
Qed.

(** Splits a healthy fault schedule into its cases. *)
Ltac healthy_cases H :=
  repeat match type of H with
  | healthy (S _) ?fs = true =>
      destruct fs as [|[?|] ?]; simpl in H; try discriminate H
  end; clear H.

Ltac run_handler :=
  unfold post_cash_intent, post_verify_cashier_code, post_purchase,
    try_catch, bind, ret, CashIntent_findOne, CashIntent_deleteOne,
    CashIntent_findOneAndUpdate, CashierCodeHistory_create,
    CashierCodeHistory_updateOne, Purchase_save, store_call,
    mobile_of, code_of in *;
  simpl in *.

Ltac valid_purchase Hn Hm Hp Hpm :=
  run_handler; rewrite Hn, Hm, Hp, Hpm; simpl.

Lemma verify_success_run t_check t_verified b w i :
  truthy (b_mobile b) = true ->
  truthy (b_cashierCode b) = true ->
  healthy 3 (faults w) = true ->
  findOne (by_mobile_code (mobile_of b) (code_of b)) (intents (db w)) = Some i ->
  t_check <= ci_expiresAt i ->
  post_verify_cashier_code t_check t_verified b w =
    (Ok (reply 200 true msg_verified), verified_world t_verified b w).
Proof.
  intros Hm Hc Hf Hfind Hle. destruct w as [s fs cs]. cbn [faults] in Hf.
  assert (Hgt : (t_check >? ci_expiresAt i) = false)
    by (destruct (Z.gtb_spec t_check (ci_expiresAt i)); [lia|done]).
  unfold verified_world.
  healthy_cases Hf; run_handler; rewrite Hm, Hc; simpl; rewrite Hfind, Hgt;
    simpl; by rewrite <- !app_assoc.
Qed.

(** A [POST /verify-cashier-code] that answers [success = true] went through
    the success path. *)
Lemma verify_success_inv t_check t_verified b w r w' :
  post_verify_cashier_code t_check t_verified b w = (Ok r, w') ->
  success r = true ->
  truthy (b_mobile b) = true /\ truthy (b_cashierCode b) = true /\
  (exists i,
     findOne (by_mobile_code (mobile_of b) (code_of b)) (intents (db w)) = Some i
     /\ t_check <= ci_expiresAt i) /\
  r = reply 200 true msg_verified /\
  intents (db w') = deleteOne (by_mobile (mobile_of b)) (intents (db w)).
Proof.
  destruct w as [s fs cs]. run_handler.
  destruct (truthy (b_mobile b)); simpl; [|by intros [= <- <-]].
  destruct (truthy (b_cashierCode b)); simpl; [|by intros [= <- <-]].
  destruct fs as [|[e|] fs]; simpl; try by intros [= <- <-].
  - destruct (findOne _ (intents s)) as [i|] eqn:Hfind; [|by intros [= <- <-]].
    destruct (Z.gtb_spec t_check (ci_expiresAt i)); simpl;
      intros [= <- <-]; [done|]. intros _. repeat split; eauto with lia.
  - destruct (findOne _ (intents s)) as [i|] eqn:Hfind; [|by intros [= <- <-]].
    destruct (Z.gtb_spec t_check (ci_expiresAt i)); simpl.
    + destruct fs as [|[e|] fs]; simpl; by intros [= <- <-].
    + destruct fs as [|[e|] fs]; simpl; try by intros [= <- <-].
      * intros [= <- <-] _. repeat split; eauto with lia.
      * destruct fs as [|[e|] fs]; simpl; try by intros [= <- <-].
        all: intros [= <- <-] _; repeat split; eauto with lia.
Qed.

Lemma verify_invalid_run t_check t_verified b w :
  truthy (b_mobile b) = true ->
  truthy (b_cashierCode b) = true ->
  healthy 1 (faults w) = true ->
  findOne (by_mobile_code (mobile_of b) (code_of b)) (intents (db w)) = None ->
  post_verify_cashier_code t_check t_verified b w =
    (Ok (reply 401 false msg_invalid),
     {| db := db w; faults := tail (faults w);
        calls := calls w ++ [(CashIntentC, OpFindOne)] |}).
Proof.
  intros Hm Hc Hf Hfind. destruct w as [s fs cs]. cbn [faults] in Hf.
  healthy_cases Hf; run_handler; rewrite Hm, Hc; simpl; by rewrite Hfind.
Qed.

Lemma verify_expired_run t_check t_verified b w i :
  truthy (b_mobile b) = true ->
  truthy (b_cashierCode b) = true ->
  healthy 2 (faults w) = true ->
  findOne (by_mobile_code (mobile_of b) (code_of b)) (intents (db w)) = Some i ->
  ci_expiresAt i < t_check ->
  post_verify_cashier_code t_check t_verified b w =
    (Ok (reply 401 false msg_expired),
     {| db := set_intents
                (deleteOne (by_mobile (mobile_of b)) (intents (db w))) (db w);
        faults := tail (tail (faults w));
        calls := calls w ++ [(CashIntentC, OpFindOne);
                             (CashIntentC, OpDeleteOne)] |}).
Proof.
  intros Hm Hc Hf Hfind Hlt. destruct w as [s fs cs]. cbn [faults] in Hf.
  assert (Hgt : (t_check >? ci_expiresAt i) = true)
    by (destruct (Z.gtb_spec t_check (ci_expiresAt i)); [done|lia]).
  healthy_cases Hf; run_handler; rewrite Hm, Hc; simpl; rewrite Hfind, Hgt;
    simpl; by rewrite <- !app_assoc.
Qed.

Lemma cash_intent_run g t_date t_now t_created b w :
  truthy (b_name b) = true ->
  truthy (b_mobile b) = true ->
  healthy 2 (faults w) = true ->
  post_cash_intent g t_date t_now t_created b w =
    (Ok {| status := 200; success := true; message := None; error := None;
           r_cashierCode := Some g |},
     issued_world g t_date t_now t_created b w).
Proof.
  intros Hn Hm Hf. destruct w as [s fs cs]. cbn [faults] in Hf.
  unfold issued_world.
  healthy_cases Hf; run_handler; rewrite Hn, Hm; simpl;
    by rewrite <- !app_assoc.
Qed.

Lemma unverified_true m c h :
  unverified m c h = true <->
  h_mobile h = m /\ h_cashierCode h = c /\ h_verified h = false.
Proof.
  unfold unverified.
  rewrite !andb_true_iff, !String.eqb_eq, negb_true_iff. tauto.
Qed.

(** The update of the success path raises the number of verified rows by one
    when a row matches, and leaves it otherwise. *)
Lemma count_verified_updateOne m c t l :
  countDocuments h_verified (updateOne (unverified m c) (set_verified t) l) =
  (countDocuments h_verified l
   + match firstIndex (unverified m c) l with Some _ => 1 | None => 0 end)%nat.
Proof.
  unfold countDocuments. induction l as [|x l IH]; simpl; [done|].
  destruct (unverified m c x) eqn:Hx; simpl.
  - apply unverified_true in Hx as (_ & _ & ->). lia.
  - destruct (h_verified x); simpl; rewrite IH;
      by destruct (firstIndex (unverified m c) l).
Qed.

(** * The scenarios of the specification *)

Example scenario_request :
  post_cash_intent "482913" 1000 1000 1000 alice fresh_world =
  (Ok {| status := 200; success := true; message := None; error := None;
         r_cashierCode := Some "482913" |},
   {| db := {| intents := [MkCashIntent "Alice" "9990001111" "482913" 1000 901000];
               history := [MkHistory "482913" "9990001111" false None 1000];
               purchases := [] |};
      faults := [];
      calls := [(CashIntentC, OpFindOneAndUpdate); (CashierCodeHistoryC, OpCreate)] |}).
Proof. reflexivity. Qed.

Example twice_issued_reached :
  db (post_cash_intent "482913" 2000 2000 2000 alice
        (post_cash_intent "482913" 1000 1000 1000 alice fresh_world).2).2
  = db twice_issued.
Proof. reflexivity. Qed.

(** RequestIntent("Alice", "9990001111") drawing "482913", then VerifyCode
    at once: success; the same call again: "Invalid code". *)
Example scenario_verify_then_repeat :
  let w1 := (post_cash_intent "482913" 1000 1000 1000 alice fresh_world).2 in
  let r2 := post_verify_cashier_code 1001 1001 alice w1 in
  let r3 := post_verify_cashier_code 1002 1002 alice r2.2 in
  r2.1 = Ok (reply 200 true msg_verified)
  /\ intents (db r2.2) = []
  /\ history (db r2.2) = [MkHistory "482913" "9990001111" true (Some 1001) 1000]
  /\ r3.1 = Ok (reply 401 false msg_invalid)
  /\ db r3.2 = db r2.2.
Proof. repeat split. Qed.

(** RequestIntent at T, VerifyCode with the right code at T + 16 minutes:
    "Code expired", and the intent is removed. *)
Example scenario_expired :
  let w1 := (post_cash_intent "482913" 1000 1000 1000 alice fresh_world).2 in
  let r2 := post_verify_cashier_code (1000 + 16 * 60 * 1000) 961001 alice w1 in
  r2.1 = Ok (reply 401 false msg_expired)
  /\ intents (db r2.2) = []
  /\ history (db r2.2) = [MkHistory "482913" "9990001111" false None 1000].
Proof. repeat split. Qed.

(** A wrong code leaves the intent where it is. *)
Example scenario_wrong_code :
  post_verify_cashier_code 1001 1001
    {| b_name := JUndefined; b_mobile := JStr "9990001111";
       b_email := JUndefined; b_products := None;
       b_paymentMethod := JUndefined; b_cashierCode := JNum 111111 |}
    issued_once
  = (Ok (reply 401 false msg_invalid),
     {| db := db issued_once; faults := [];
        calls := [(CashIntentC, OpFindOne)] |}).
Proof. reflexivity. Qed.

(** The code may come as a number: it is compared as text. *)
Example scenario_numeric_code :
  (post_verify_cashier_code 1001 1001
     {| b_name := JUndefined; b_mobile := JNum 9990001111;
        b_email := JUndefined; b_products := None;
        b_paymentMethod := JUndefined; b_cashierCode := JNum 482913 |}
     issued_once).1
  = Ok (reply 200 true msg_verified).
Proof. reflexivity. Qed.

(** * The claims *)

(** C1 (as amended): when [findOne] returns an unexpired [CashIntent] for
    the mobile and code, and no store call fails, [POST /verify-cashier-code]
    answers 200 "Code verified"; it deletes the first intent stored for the
    mobile, which under the invariant is the intent found and leaves none
    for the mobile; and it sets [verified = true] and [verifiedAt] on the
    first row in store order that has the mobile, the code and
    [verified = false], on no row when there is none. *)
Theorem verify_consumes_intent t_check t_verified b w i :
  truthy (b_mobile b) = true ->
  truthy (b_cashierCode b) = true ->
  healthy 3 (faults w) = true ->
  findOne (by_mobile_code (mobile_of b) (code_of b)) (intents (db w)) = Some i ->
  t_check <= ci_expiresAt i ->
  exists w',
    post_verify_cashier_code t_check t_verified b w =
      (Ok {| status := 200; success := true; message := Some msg_verified;
             error := None; r_cashierCode := None |}, w')
    /\ S (countDocuments (by_mobile (mobile_of b)) (intents (db w'))) =
       countDocuments (by_mobile (mobile_of b)) (intents (db w))
    /\ (unique_mobile (intents (db w)) ->
        (exists l1 l2, intents (db w) = l1 ++ i :: l2
                       /\ intents (db w') = l1 ++ l2)
        /\ findOne (by_mobile (mobile_of b)) (intents (db w')) = None)
    /\ history (db w') =
       match firstIndex (unverified (mobile_of b) (code_of b)) (history (db w)) with
       | Some k => alter (set_verified t_verified) k (history (db w))
       | None => history (db w)
       end
    /\ purchases (db w') = purchases (db w).
Proof.
  intros Hm Hc Hf Hfind Hle. exists (verified_world t_verified b w).
  split; [by eapply verify_success_run|]. simpl.
  assert (Hfirst : exists j, findOne (by_mobile (mobile_of b)) (intents (db w)) = Some j).
  { destruct (findOne (by_mobile _) _) as [j|] eqn:E; [by exists j|].
    rewrite findOne_None in E. apply findOne_Some in Hfind as [Hin Hi].
    apply by_mobile_code_by_mobile in Hi. rewrite (E i Hin) in Hi.
    discriminate. }
  destruct Hfirst as [j Hj].
  split; [by eapply count_deleteOne|].
  split; [|split; [apply updateOne_alter|done]].
  intros Huniq. split.
  - by eapply unique_mobile_deleteOne_found.
  - by apply unique_mobile_deleteOne_gone.
Qed.

Lemma verify_consumes_intent_witness :
  exists w',
    post_verify_cashier_code 3000 3001 alice twice_issued =
      (Ok (reply 200 true msg_verified), w')
    /\ S (countDocuments (by_mobile "9990001111") (intents (db w'))) = 1%nat
    /\ (unique_mobile (intents (db twice_issued)) ->
        (exists l1 l2,
           intents (db twice_issued) =
             l1 ++ MkCashIntent "Alice" "9990001111" "482913" 2000 902000 :: l2
           /\ intents (db w') = l1 ++ l2)
        /\ findOne (by_mobile "9990001111") (intents (db w')) = None)
    /\ history (db w') =
       [MkHistory "482913" "9990001111" true (Some 3001) 1000;
        MkHistory "482913" "9990001111" false None 2000]
    /\ purchases (db w') = [].
Proof.
  apply (verify_consumes_intent 3000 3001 alice twice_issued
           (MkCashIntent "Alice" "9990001111" "482913" 2000 902000));
    [reflexivity | reflexivity | reflexivity | reflexivity | simpl; lia].
Defined.

(** C1 as stated fails: with two unverified rows for the mobile and code,
    the success path marks the older row and leaves the most recent one,
    created at 2000, unverified; the store is not the one an update of the
    most recent matching row gives. *)
Lemma verify_most_recent_counterexample :
  findOne (by_mobile_code (mobile_of alice) (code_of alice))
    (intents (db twice_issued))
    = Some (MkCashIntent "Alice" "9990001111" "482913" 2000 902000)
  /\ (post_verify_cashier_code 3000 3001 alice twice_issued).1
     = Ok (reply 200 true msg_verified)
  /\ history (db (post_verify_cashier_code 3000 3001 alice twice_issued).2)
     = [MkHistory "482913" "9990001111" true (Some 3001) 1000;
        MkHistory "482913" "9990001111" false None 2000]
  /\ update_most_recent (unverified (mobile_of alice) (code_of alice))
       (set_verified 3001) (history (db twice_issued))
     = [MkHistory "482913" "9990001111" false None 1000;
        MkHistory "482913" "9990001111" true (Some 3001) 2000]
  /\ history (db (post_verify_cashier_code 3000 3001 alice twice_issued).2)
     <> update_most_recent (unverified (mobile_of alice) (code_of alice))
          (set_verified 3001) (history (db twice_issued)).
Proof. repeat split; try reflexivity. vm_compute. discriminate. Qed.

(** C2 (as amended): after a [POST /cash-intent] with a name and a mobile,
    in a store with at most one intent per mobile and with no store call
    refused, the answer is 200 with the generated code, exactly one intent is
    stored for the mobile, it carries the code, and its [expiresAt] is the
    reading of [Date.now()] plus 15 minutes.  Its stored creation time [date]
    is another reading, the one of [new Date()] taken just before:
    [expiresAt] is [date] plus 15 minutes when the two readings agree, and at
    least that when the clock did not run backwards.  Every operation,
    whatever its input and the faults of the store, keeps at most one intent
    per mobile. *)
Theorem cash_intent_single g t_date t_now t_created b w :
  truthy (b_name b) = true ->
  truthy (b_mobile b) = true ->
  healthy 2 (faults w) = true ->
  unique_mobile (intents (db w)) ->
  (exists w' i,
     post_cash_intent g t_date t_now t_created b w =
       (Ok {| status := 200; success := true; message := None; error := None;
              r_cashierCode := Some g |}, w')
     /\ List.filter (by_mobile (mobile_of b)) (intents (db w')) = [i]
     /\ countDocuments (by_mobile (mobile_of b)) (intents (db w')) = 1%nat
     /\ ci_cashierCode i = g
     /\ ci_date i = t_date
     /\ ci_expiresAt i = t_now + 15 * 60 * 1000
     /\ (t_date = t_now -> ci_expiresAt i = ci_date i + 15 * 60 * 1000)
     /\ (t_date <= t_now -> ci_date i + 15 * 60 * 1000 <= ci_expiresAt i))
  /\ (forall q v,
        unique_mobile (intents (db v)) ->
        unique_mobile (intents (db (handle q v).2))).
Proof.
  intros Hn Hm Hf Huniq. split; [|intros q v; apply handle_keeps_unique].
  exists (issued_world g t_date t_now t_created b w),
    (issued_intent g t_date t_now b).
  split; [by apply cash_intent_run|].
  assert (Hone :
    List.filter (by_mobile (mobile_of b))
      (intents (db (issued_world g t_date t_now t_created b w)))
    = [issued_intent g t_date t_now b]) by by apply filter_upsert.
  unfold countDocuments. rewrite Hone. repeat split; simpl.
  - by intros ->.
  - unfold fifteen_minutes. lia.
Qed.

Lemma cash_intent_single_witness :
  (exists w' i,
     post_cash_intent "482913" 1000 1001 1002 alice fresh_world =
       (Ok {| status := 200; success := true; message := None; error := None;
              r_cashierCode := Some "482913" |}, w')
     /\ List.filter (by_mobile "9990001111") (intents (db w')) = [i]
     /\ countDocuments (by_mobile "9990001111") (intents (db w')) = 1%nat
     /\ ci_cashierCode i = "482913"
     /\ ci_date i = 1000
     /\ ci_expiresAt i = 901001
     /\ (1000 = 1001 -> ci_expiresAt i = ci_date i + 15 * 60 * 1000)
     /\ (1000 <= 1001 -> ci_date i + 15 * 60 * 1000 <= ci_expiresAt i))
  /\ (forall q v,
        unique_mobile (intents (db v)) ->
        unique_mobile (intents (db (handle q v).2))).
Proof.
  apply (cash_intent_single "482913" 1000 1001 1002 alice fresh_world);
    [reflexivity | reflexivity | reflexivity | apply NoDup_nil_2].
Defined.


(** C2 as stated fails: when the clock moves between the two readings, here
    from 1000 to 1001, the one intent stored for the mobile has a creation
    time of 1000 and an [expiresAt] of 901001, which is not its creation time
    plus 15 minutes. *)
Lemma cash_intent_expiry_counterexample :
  exists w',
    post_cash_intent "482913" 1000 1001 1002 alice fresh_world =
      (Ok {| status := 200; success := true; message := None; error := None;
             r_cashierCode := Some "482913" |}, w')
    /\ intents (db w') =
       [MkCashIntent "Alice" "9990001111" "482913" 1000 901001]
    /\ forall i, i ∈ intents (db w') ->
         ci_expiresAt i <> ci_date i + 15 * 60 * 1000.
Proof.
  exists (post_cash_intent "482913" 1000 1001 1002 alice fresh_world).2.
  split; [reflexivity|]. split; [reflexivity|].
  intros i Hi. apply list_elem_of_singleton in Hi. subst i.
  vm_compute. discriminate.
Qed.

(** C3: when [findOne] returns a [CashIntent] for the mobile and code whose
    [expiresAt] is before the clock reading, and no store call fails,
    [POST /verify-cashier-code] answers 401 "Code expired" and deletes the
    first intent stored for the mobile: under the invariant that is the
    intent found, and none is left for the mobile.  The history is not
    touched. *)
Theorem verify_expired t_check t_verified b w i :
  truthy (b_mobile b) = true ->
  truthy (b_cashierCode b) = true ->
  healthy 2 (faults w) = true ->
  findOne (by_mobile_code (mobile_of b) (code_of b)) (intents (db w)) = Some i ->
  ci_expiresAt i < t_check ->
  exists w',
    post_verify_cashier_code t_check t_verified b w =
      (Ok {| status := 401; success := false; message := Some msg_expired;
             error := None; r_cashierCode := None |}, w')
    /\ S (countDocuments (by_mobile (mobile_of b)) (intents (db w'))) =
       countDocuments (by_mobile (mobile_of b)) (intents (db w))
    /\ (unique_mobile (intents (db w)) ->
        (exists l1 l2, intents (db w) = l1 ++ i :: l2
                       /\ intents (db w') = l1 ++ l2)
        /\ findOne (by_mobile (mobile_of b)) (intents (db w')) = None)
    /\ history (db w') = history (db w)
    /\ purchases (db w') = purchases (db w).
Proof.
  intros Hm Hc Hf Hfind Hlt. eexists.
  split; [by eapply verify_expired_run|]. simpl.
  destruct (deleteOne_after_found _ _ _ _ Hfind) as [Hcount Huniq].
  by repeat split; try apply Huniq.
Qed.

Lemma verify_expired_witness :
  exists w',
    post_verify_cashier_code 961000 961000 alice issued_once =
      (Ok (reply 401 false msg_expired), w')
    /\ S (countDocuments (by_mobile "9990001111") (intents (db w'))) = 1%nat
    /\ (unique_mobile (intents (db issued_once)) ->
        (exists l1 l2,
           intents (db issued_once) =
             l1 ++ MkCashIntent "Alice" "9990001111" "482913" 1000 901000 :: l2
           /\ intents (db w') = l1 ++ l2)
        /\ findOne (by_mobile "9990001111") (intents (db w')) = None)
    /\ history (db w') = [MkHistory "482913" "9990001111" false None 1000]
    /\ purchases (db w') = [].
Proof.
  apply (verify_expired 961000 961000 alice issued_once
           (MkCashIntent "Alice" "9990001111" "482913" 1000 901000));
    [reflexivity | reflexivity | reflexivity | reflexivity | simpl; lia].
Defined.

(** C4: when no [CashIntent] has both the mobile and the code of the
    request, also when one is stored for the mobile under another code,
    [POST /verify-cashier-code] answers 401 "Invalid code" and the store is
    the one before: the only store call is the [findOne]. *)
Theorem verify_invalid_code t_check t_verified b w :
  truthy (b_mobile b) = true ->
  truthy (b_cashierCode b) = true ->
  healthy 1 (faults w) = true ->
  findOne (by_mobile_code (mobile_of b) (code_of b)) (intents (db w)) = None ->
  exists w',
    post_verify_cashier_code t_check t_verified b w =
      (Ok {| status := 401; success := false; message := Some msg_invalid;
             error := None; r_cashierCode := None |}, w')
    /\ db w' = db w
    /\ calls w' = calls w ++ [(CashIntentC, OpFindOne)].
Proof.
  intros Hm Hc Hf Hfind. eexists. split.
  - by apply verify_invalid_run.
  - by split.
Qed.

Lemma verify_invalid_code_witness :
  exists w',
    post_verify_cashier_code 2000 2000 alice
      {| db := {| intents := [bob_intent]; history := []; purchases := [] |};
         faults := []; calls := [] |} =
      (Ok (reply 401 false msg_invalid), w')
    /\ db w' = {| intents := [bob_intent]; history := []; purchases := [] |}
    /\ calls w' = [(CashIntentC, OpFindOne)].
Proof.
  apply (verify_invalid_code 2000 2000 alice
           {| db := {| intents := [bob_intent]; history := [];
                       purchases := [] |};
              faults := []; calls := [] |}); reflexivity.
Defined.

(** C5: under the invariant, after a [POST /verify-cashier-code] that
    answered with success, the same request again, whatever the clock shows,
    finds no intent for the mobile and answers 401 "Invalid code", leaving
    the store as the first call left it. *)
Theorem verify_twice_invalid t1 t2 t3 t4 b w r w1 :
  unique_mobile (intents (db w)) ->
  post_verify_cashier_code t1 t2 b w = (Ok r, w1) ->
  success r = true ->
  healthy 1 (faults w1) = true ->
  exists w2,
    post_verify_cashier_code t3 t4 b w1 =
      (Ok {| status := 401; success := false; message := Some msg_invalid;
             error := None; r_cashierCode := None |}, w2)
    /\ findOne (by_mobile (mobile_of b)) (intents (db w1)) = None
    /\ db w2 = db w1.
Proof.
  intros Huniq Hrun Hok Hf.
  destruct (verify_success_inv _ _ _ _ _ _ Hrun Hok)
    as (Hm & Hc & _ & _ & Hintents).
  assert (Hgone : findOne (by_mobile (mobile_of b)) (intents (db w1)) = None).
  { rewrite Hintents. by apply unique_mobile_deleteOne_gone. }
  eexists. split.
  - apply verify_invalid_run; try done. by apply findOne_code_None.
  - by split.
Qed.

Lemma verify_twice_invalid_witness :
  exists w2,
    post_verify_cashier_code 1001 1001 alice
      (post_verify_cashier_code 1001 1001 alice issued_once).2 =
      (Ok (reply 401 false msg_invalid), w2)
    /\ findOne (by_mobile "9990001111")
         (intents (db (post_verify_cashier_code 1001 1001 alice issued_once).2))
       = None
    /\ db w2 = db (post_verify_cashier_code 1001 1001 alice issued_once).2.
Proof.
  apply (verify_twice_invalid 1001 1001 1001 1001 alice issued_once
           (reply 200 true msg_verified)
           (post_verify_cashier_code 1001 1001 alice issued_once).2);
    [ apply NoDup_singleton | reflexivity | reflexivity | reflexivity ].
Defined.

(** C6: a [POST /purchase] with [paymentMethod = 'cash'] whose [deleteOne]
    is not refused by the store removes the first intent stored for the
    mobile, whether or not the purchase is then saved; under the invariant no
    intent is left for the mobile.  Nothing is asked of the history (no
    verification needs to have happened) and the history is not touched. *)
Theorem cash_purchase_clears_intent b w products :
  truthy (b_name b) = true ->
  truthy (b_mobile b) = true ->
  b_products b = Some products ->
  b_paymentMethod b = JStr "cash" ->
  healthy 1 (faults w) = true ->
  exists r w',
    post_purchase b w = (Ok r, w')
    /\ intents (db w') = deleteOne (by_mobile (mobile_of b)) (intents (db w))
    /\ (forall i, findOne (by_mobile (mobile_of b)) (intents (db w)) = Some i ->
          S (countDocuments (by_mobile (mobile_of b)) (intents (db w'))) =
          countDocuments (by_mobile (mobile_of b)) (intents (db w)))
    /\ (unique_mobile (intents (db w)) ->
        findOne (by_mobile (mobile_of b)) (intents (db w')) = None)
    /\ history (db w') = history (db w).
Proof.
  intros Hn Hm Hp Hpm Hf. destruct w as [s fs cs]. cbn [faults] in Hf.
  assert (Hfacts :
    (forall i, findOne (by_mobile (mobile_of b)) (intents s) = Some i ->
       S (countDocuments (by_mobile (mobile_of b))
            (deleteOne (by_mobile (mobile_of b)) (intents s))) =
       countDocuments (by_mobile (mobile_of b)) (intents s))
    /\ (unique_mobile (intents s) ->
        findOne (by_mobile (mobile_of b))
          (deleteOne (by_mobile (mobile_of b)) (intents s)) = None)).
  { split; [intros i Hi; by eapply count_deleteOne|].
    apply unique_mobile_deleteOne_gone. }
  destruct Hfacts as [Hcount Hgone].
  destruct fs as [|[e|] fs1]; simpl in Hf; try discriminate Hf;
    [|destruct fs1 as [|[e|] fs2]];
    valid_purchase Hn Hm Hp Hpm; do 2 eexists; (split; [reflexivity|]);
    simpl; by repeat split.
Qed.

Lemma cash_purchase_clears_intent_witness :
  exists r w',
    post_purchase cash_purchase issued_once = (Ok r, w')
    /\ intents (db w') = []
    /\ (forall i, findOne (by_mobile "9990001111") (intents (db issued_once))
                  = Some i ->
          S (countDocuments (by_mobile "9990001111") (intents (db w'))) = 1%nat)
    /\ (unique_mobile (intents (db issued_once)) ->
        findOne (by_mobile "9990001111") (intents (db w')) = None)
    /\ history (db w') = [MkHistory "482913" "9990001111" false None 1000].
Proof.
  apply (cash_purchase_clears_intent cash_purchase issued_once ["milk"]);
    reflexivity.
Defined.

(** C7: a [POST /cash-intent] whose name or mobile is missing, and a
    [POST /verify-cashier-code] whose mobile or code is missing, is answered
    with status 400 and [success = false], and the world is the one before:
    the store is unchanged and no store call was made. *)
Theorem missing_fields_rejected g t_date t_now t_created t_check t_verified b w :
  (truthy (b_name b) = false \/ truthy (b_mobile b) = false ->
   post_cash_intent g t_date t_now t_created b w =
     (Ok {| status := 400; success := false; message := Some "Missing fields";
            error := None; r_cashierCode := None |}, w))
  /\
  (truthy (b_mobile b) = false \/ truthy (b_cashierCode b) = false ->
   post_verify_cashier_code t_check t_verified b w =
     (Ok {| status := 400; success := false;
            message := Some "Missing mobile or code";
            error := None; r_cashierCode := None |}, w)).
Proof.
  split; intros [H|H]; run_handler; rewrite H; simpl;
    try reflexivity; by rewrite orb_true_r.
Qed.

Lemma missing_fields_rejected_witness :
  post_cash_intent "482913" 1000 1000 1000
    {| b_name := JStr ""; b_mobile := JStr "9990001111"; b_email := JUndefined;
       b_products := None; b_paymentMethod := JUndefined;
       b_cashierCode := JUndefined |} fresh_world =
    (Ok (reply 400 false "Missing fields"), fresh_world)
  /\
  post_verify_cashier_code 1000 1000
    {| b_name := JStr ""; b_mobile := JStr "9990001111"; b_email := JUndefined;
       b_products := None; b_paymentMethod := JUndefined;
       b_cashierCode := JUndefined |} fresh_world =
    (Ok (reply 400 false "Missing mobile or code"), fresh_world).
Proof.
  split.
  - apply (missing_fields_rejected "482913" 1000 1000 1000 1000 1000).
    left. reflexivity.
  - apply (missing_fields_rejected "482913" 1000 1000 1000 1000 1000).
    right. reflexivity.
Defined.

(** C8: in the success path the history update touches a single row.  The
    history afterwards is the one before with, at the first position in store
    order whose row has the mobile, the code and [verified = false], that row
    with [verified = true] and [verifiedAt] set, and is the one before when
    there is no such row: the number of verified rows grows by one or not at
    all; a row that differs afterwards is that first row; the last matching
    row, when it is another one, is still unverified; and when rows are
    stored in creation order, the row marked is the oldest matching one. *)
Theorem verify_marks_first_row_only t_check t_verified b w i :
  truthy (b_mobile b) = true ->
  truthy (b_cashierCode b) = true ->
  healthy 3 (faults w) = true ->
  findOne (by_mobile_code (mobile_of b) (code_of b)) (intents (db w)) = Some i ->
  t_check <= ci_expiresAt i ->
  exists w',
    post_verify_cashier_code t_check t_verified b w =
      (Ok (reply 200 true msg_verified), w')
    /\ history (db w') =
       match firstIndex (unverified (mobile_of b) (code_of b)) (history (db w)) with
       | Some k =>
           alter (fun a =>
                    {| h_cashierCode := h_cashierCode a; h_mobile := h_mobile a;
                       h_verified := true; h_verifiedAt := Some t_verified;
                       h_createdAt := h_createdAt a |}) k (history (db w))
       | None => history (db w)
       end
    /\ countDocuments h_verified (history (db w')) =
       (countDocuments h_verified (history (db w))
        + match firstIndex (unverified (mobile_of b) (code_of b))
                  (history (db w)) with
          | Some _ => 1
          | None => 0
          end)%nat
    /\ length (history (db w')) = length (history (db w))
    /\ (forall j, history (db w') !! j <> history (db w) !! j ->
          firstIndex (unverified (mobile_of b) (code_of b)) (history (db w))
          = Some j)
    /\ (forall k a,
          firstIndex (unverified (mobile_of b) (code_of b)) (history (db w))
          = Some k ->
          history (db w) !! k = Some a ->
          h_verified a = false
          /\ history (db w') !! k =
             Some {| h_cashierCode := h_cashierCode a; h_mobile := h_mobile a;
                     h_verified := true; h_verifiedAt := Some t_verified;
                     h_createdAt := h_createdAt a |})
    /\ (forall k j,
          firstIndex (unverified (mobile_of b) (code_of b)) (history (db w))
          = Some k ->
          lastIndex (unverified (mobile_of b) (code_of b)) (history (db w))
          = Some j ->
          k <> j ->
          exists a, history (db w') !! j = Some a
                    /\ h_verified a = false
                    /\ unverified (mobile_of b) (code_of b) a = true)
    /\ (by_creation (history (db w)) ->
        forall k a j c,
          firstIndex (unverified (mobile_of b) (code_of b)) (history (db w))
          = Some k ->
          history (db w) !! k = Some a ->
          history (db w) !! j = Some c ->
          unverified (mobile_of b) (code_of b) c = true ->
          h_createdAt a <= h_createdAt c).
Proof.
  intros Hm Hc Hf Hfind Hle. exists (verified_world t_verified b w).
  split; [by eapply verify_success_run|]. simpl.
  split; [apply updateOne_alter|].
  split; [apply count_verified_updateOne|].
  rewrite updateOne_alter.
  set (f := unverified (mobile_of b) (code_of b)).
  set (hist := history (db w)).
  destruct (firstIndex f hist) as [k0|] eqn:Hk0.
  - split; [apply length_alter|]. split; [|split; [|split]].
    + intros j Hne. destruct (decide (k0 = j)) as [->|Hkj]; [done|].
      by rewrite list_lookup_alter_ne in Hne.
    + intros k a [= <-] Ha. split.
      * apply firstIndex_Some in Hk0 as (a' & Ha' & Hfa & _).
        assert (a' = a) as -> by congruence.
        by apply unverified_true in Hfa as (_ & _ & Hv).
      * by rewrite list_lookup_alter_eq, Ha.
    + intros k j [= <-] Hlast Hkj.
      apply lastIndex_Some in Hlast as (a & Ha & Hfa & _).
      exists a. rewrite list_lookup_alter_ne by done.
      split; [done|]. split; [|done].
      by apply unverified_true in Hfa as (_ & _ & Hv).
    + intros Hsorted k a j c [= <-] Ha Hc' Hfc.
      apply firstIndex_Some in Hk0 as (a' & Ha' & _ & Hmin).
      destruct (decide (j < k0)%nat) as [Hlt|Hge].
      * rewrite (Hmin j c Hlt Hc') in Hfc. discriminate.
      * apply (Hsorted k0 j a c); [lia|done..].
  - split; [done|]. split; [by intros j []|]. by repeat split.
Qed.

Lemma verify_marks_first_row_only_witness :
  exists w',
    post_verify_cashier_code 3000 3001 alice twice_issued =
      (Ok (reply 200 true msg_verified), w')
    /\ history (db w') =
       [MkHistory "482913" "9990001111" true (Some 3001) 1000;
        MkHistory "482913" "9990001111" false None 2000]
    /\ countDocuments h_verified (history (db w')) = 1%nat
    /\ length (history (db w')) = 2%nat
    /\ (forall j, history (db w') !! j <> history (db twice_issued) !! j ->
          Some 0%nat = Some j)
    /\ (forall k a,
          Some 0%nat = Some k ->
          history (db twice_issued) !! k = Some a ->
          h_verified a = false
          /\ history (db w') !! k =
             Some {| h_cashierCode := h_cashierCode a; h_mobile := h_mobile a;
                     h_verified := true; h_verifiedAt := Some 3001;
                     h_createdAt := h_createdAt a |})
    /\ (forall k j,
          Some 0%nat = Some k -> Some 1%nat = Some j -> k <> j ->
          exists a, history (db w') !! j = Some a
                    /\ h_verified a = false
                    /\ unverified "9990001111" "482913" a = true)
    /\ (by_creation (history (db twice_issued)) ->
        forall k a j c,
          Some 0%nat = Some k ->
          history (db twice_issued) !! k = Some a ->
          history (db twice_issued) !! j = Some c ->
          unverified "9990001111" "482913" c = true ->
          h_createdAt a <= h_createdAt c).
Proof.
  apply (verify_marks_first_row_only 3000 3001 alice twice_issued
           (MkCashIntent "Alice" "9990001111" "482913" 2000 902000));
    [reflexivity | reflexivity | reflexivity | reflexivity | simpl; lia].
Defined.

(** C9: when the [deleteOne] of a cash [POST /purchase] goes through and
    the [save] that follows it is refused, the answer is 500 with the store's
    message, no purchase is stored, and the intent stays deleted: if the
    mobile had an intent, the store is not the one before the request. *)
Theorem cash_purchase_not_atomic b w products e fs :
  truthy (b_name b) = true ->
  truthy (b_mobile b) = true ->
  b_products b = Some products ->
  b_paymentMethod b = JStr "cash" ->
  faults w = None :: Some e :: fs ->
  exists w',
    post_purchase b w =
      (Ok {| status := 500; success := false;
             message := Some "Error saving purchase"; error := Some e;
             r_cashierCode := None |}, w')
    /\ intents (db w') = deleteOne (by_mobile (mobile_of b)) (intents (db w))
    /\ purchases (db w') = purchases (db w)
    /\ calls w' = calls w ++ [(CashIntentC, OpDeleteOne); (PurchaseC, OpSave)]
    /\ (forall i, findOne (by_mobile (mobile_of b)) (intents (db w)) = Some i ->
          S (countDocuments (by_mobile (mobile_of b)) (intents (db w'))) =
          countDocuments (by_mobile (mobile_of b)) (intents (db w))
          /\ db w' <> db w).
Proof.
  intros Hn Hm Hp Hpm Hfs. destruct w as [s fs0 cs]. simpl in Hfs. subst fs0.
  valid_purchase Hn Hm Hp Hpm. eexists. split; [reflexivity|]. simpl.
  split; [done|]. split; [done|]. split; [by rewrite <- app_assoc|].
  intros i Hi. apply count_deleteOne in Hi. split; [done|].
  intros Heq. apply (f_equal intents) in Heq. simpl in Heq.
  rewrite Heq in Hi. lia.
Qed.

Lemma cash_purchase_not_atomic_witness :
  exists w',
    post_purchase cash_purchase
      {| db := db issued_once; faults := [None; Some "write refused"];
         calls := [] |} =
      (Ok (reply_error "Error saving purchase" "write refused"), w')
    /\ intents (db w') = []
    /\ purchases (db w') = []
    /\ calls w' = [(CashIntentC, OpDeleteOne); (PurchaseC, OpSave)]
    /\ (forall i, findOne (by_mobile "9990001111") (intents (db issued_once))
                  = Some i ->
          S (countDocuments (by_mobile "9990001111") (intents (db w'))) = 1%nat
          /\ db w' <> db issued_once).
Proof.
  apply (cash_purchase_not_atomic cash_purchase
           {| db := db issued_once; faults := [None; Some "write refused"];
              calls := [] |} ["milk"] "write refused" []); reflexivity.
Defined.

(** C10: when the upsert of [POST /cash-intent] goes through and the
    history [create] that follows it is refused, the answer is 500 with the
    store's message and without the code, while the intent carrying the new
    code is the one stored for the mobile, and no history row was added. *)
Theorem cash_intent_not_atomic g t_date t_now t_created b w e fs :
  truthy (b_name b) = true ->
  truthy (b_mobile b) = true ->
  faults w = None :: Some e :: fs ->
  exists w',
    post_cash_intent g t_date t_now t_created b w =
      (Ok {| status := 500; success := false;
             message := Some "Error saving cash intent"; error := Some e;
             r_cashierCode := None |}, w')
    /\ findOne (by_mobile (mobile_of b)) (intents (db w'))
       = Some (issued_intent g t_date t_now b)
    /\ history (db w') = history (db w)
    /\ calls w' = calls w ++ [(CashIntentC, OpFindOneAndUpdate);
                              (CashierCodeHistoryC, OpCreate)].
Proof.
  intros Hn Hm Hfs. destruct w as [s fs0 cs]. simpl in Hfs. subst fs0.
  run_handler. rewrite Hn, Hm. simpl. eexists. split; [reflexivity|]. simpl.
  split; [by apply findOne_upsert|]. split; [done|by rewrite <- app_assoc].
Qed.

Lemma cash_intent_not_atomic_witness :
  exists w',
    post_cash_intent "482913" 1000 1000 1000 alice
      {| db := empty_store; faults := [None; Some "write refused"];
         calls := [] |} =
      (Ok (reply_error "Error saving cash intent" "write refused"), w')
    /\ findOne (by_mobile "9990001111") (intents (db w'))
       = Some (MkCashIntent "Alice" "9990001111" "482913" 1000 901000)
    /\ history (db w') = []
    /\ calls w' = [(CashIntentC, OpFindOneAndUpdate);
                   (CashierCodeHistoryC, OpCreate)].
Proof.
  apply (cash_intent_not_atomic "482913" 1000 1000 1000 alice
           {| db := empty_store; faults := [None; Some "write refused"];
              calls := [] |} "write refused" []); reflexivity.
Defined.

(** * Further properties of the handlers *)

Ltac pick_effect :=
  first [ apply list_elem_of_here
        | apply list_elem_of_further; pick_effect ].

Lemma handle_effects q w : db (handle q w).2 ∈ effects q (db w).
Proof.
  destruct w as [s fs cs], q as [g t1 t2 t3 b|t1 t2 b|b]; cbn [handle];
    run_handler; unfold effects, issued_intent, issued_row, purchase_doc, mobile_of,
      code_of; simpl.
  - destruct (truthy (b_name b)), (truthy (b_mobile b)); simpl;
      try pick_effect.
    destruct fs as [|[e1|] [|[e2|] fs]]; simpl; pick_effect.
  - destruct (truthy (b_mobile b)), (truthy (b_cashierCode b)); simpl;
      try pick_effect.
    destruct fs as [|[e1|] [|[e2|] [|[e3|] fs]]]; simpl;
      try pick_effect;
      destruct (findOne _ (intents s)) as [i|]; simpl;
      try pick_effect;
      destruct (t1 >? ci_expiresAt i); simpl; pick_effect.
  - destruct (truthy (b_name b)), (truthy (b_mobile b)),
      (bool_decide (is_Some (b_products b))), (truthy (b_paymentMethod b));
      simpl; try pick_effect.
    destruct (strict_eq_str (b_paymentMethod b) "cash");
      destruct fs as [|[e1|] [|[e2|] fs]]; simpl; pick_effect.
Qed.

Ltac answer_leaf :=
  do 2 eexists; split; [reflexivity|]; simpl;
  split; [auto 6|]; split; [by split|]; split;
  [ split; intros H500;
    first [discriminate H500 | by destruct H500 | by eexists | reflexivity]
  | intros ? E; first [discriminate E | injection E as <-; pick_effect] ].

(** A request whose body holds scalars in its fields (and, for
    [POST /cash-intent], once [generateCashierCode()] has returned its code)
    is answered: no throw leaves the handler.  The status is 200, 400, 401 or
    500; [success] is true exactly for 200; the answer is 500 exactly when it
    carries an [error], and that error is the message of a fault of the
    store. *)
Theorem handle_always_answers q w :
  exists r w',
    handle q w = (Ok r, w')
    /\ (status r = 200 \/ status r = 400 \/ status r = 401 \/ status r = 500)%nat
    /\ (success r = true <-> status r = 200%nat)
    /\ (status r = 500%nat <-> is_Some (error r))
    /\ (forall e, error r = Some e -> Some e ∈ faults w).
Proof.
  destruct w as [s fs cs], q as [g t1 t2 t3 b|t1 t2 b|b]; cbn [handle];
    run_handler.
  - destruct (truthy (b_name b)), (truthy (b_mobile b)); simpl;
      try answer_leaf.
    destruct fs as [|[e1|] [|[e2|] fs]]; simpl; answer_leaf.
  - destruct (truthy (b_mobile b)), (truthy (b_cashierCode b)); simpl;
      try answer_leaf.
    destruct fs as [|[e1|] [|[e2|] [|[e3|] fs]]]; simpl;
      try answer_leaf;
      destruct (findOne _ (intents s)) as [i|]; simpl;
      try answer_leaf;
      destruct (t1 >? ci_expiresAt i); simpl; answer_leaf.
  - destruct (truthy (b_name b)), (truthy (b_mobile b)),
      (bool_decide (is_Some (b_products b))), (truthy (b_paymentMethod b));
      simpl; try answer_leaf.
    destruct (strict_eq_str (b_paymentMethod b) "cash");
      destruct fs as [|[e1|] [|[e2|] fs]]; simpl; answer_leaf.
Qed.

(** Splits [s' ∈ effects q s] into its cases. *)
Ltac effect_cases H :=
  unfold effects in H; cbn [request_body] in H;
  repeat (apply elem_of_cons in H as [H|H]);
  [ .. | by apply elem_of_nil in H ]; rewrite H; clear H; simpl.

Lemma updateOne_lookup {A} (f : A -> bool) (u : A -> A) (l : list A) j d :
  l !! j = Some d ->
  updateOne f u l !! j = Some d
  \/ (f d = true /\ updateOne f u l !! j = Some (u d)).
Proof.
  revert j. induction l as [|x l IH]; intros j; [done|]. simpl.
  destruct (f x) eqn:Hx.
  - destruct j as [|j]; simpl; [|by left].
    intros [= ->]. by right.
  - destruct j as [|j]; simpl; [by left|]. apply IH.
Qed.

Lemma filter_upsert_other m m' doc l :
  ci_mobile doc = m -> m' <> m ->
  List.filter (by_mobile m')
    (findOneAndUpdate (by_mobile m) (fun _ => doc) doc l)
  = List.filter (by_mobile m') l.
Proof.
  intros Hdoc Hne.
  assert (Hdoc' : by_mobile m' doc = false)
    by (apply by_mobile_false; congruence).
  unfold findOneAndUpdate, create.
  destruct (findOne (by_mobile m) l) as [c|].
  - induction l as [|x l IH]; simpl; [done|].
    destruct (by_mobile m x) eqn:Hx; simpl.
    + rewrite Hdoc'. apply by_mobile_true in Hx.
      assert (by_mobile m' x = false) as ->; [|done].
      apply by_mobile_false. congruence.
    + by rewrite IH.
  - rewrite List.filter_app. simpl. rewrite Hdoc'. apply app_nil_r.
Qed.

Lemma filter_deleteOne_other_mobile m m' l :
  m' <> m ->
  List.filter (by_mobile m') (deleteOne (by_mobile m) l)
  = List.filter (by_mobile m') l.
Proof.
  intros Hne. apply filter_deleteOne_other. intros d Hd.
  apply by_mobile_true in Hd. apply by_mobile_false. congruence.
Qed.

(** When the first store call of a request that passed its guard is
    refused, the answer is 500 with the store's message, the store is the one
    before, and no further store call was made. *)
Theorem refused_first_call q w e fs :
  passes_guard q = true ->
  faults w = Some e :: fs ->
  exists r w',
    handle q w = (Ok r, w')
    /\ status r = 500%nat
    /\ error r = Some e
    /\ db w' = db w
    /\ length (calls w') = S (length (calls w)).
Proof.
  intros Hg Hfs. destruct w as [s fs0 cs]. simpl in Hfs. subst fs0.
  destruct q as [g t1 t2 t3 b|t1 t2 b|b]; cbn [handle]; simpl in Hg;
    repeat (apply andb_true_iff in Hg as [Hg ?]); run_handler;
    repeat match goal with H : _ = true |- _ => rewrite H; clear H end; simpl.
  - do 2 eexists. split; [reflexivity|]. simpl.
    by rewrite length_app, Nat.add_1_r.
  - do 2 eexists. split; [reflexivity|]. simpl.
    by rewrite length_app, Nat.add_1_r.
  - destruct (strict_eq_str (b_paymentMethod b) "cash"); simpl;
      do 2 eexists; (split; [reflexivity|]); simpl;
      by rewrite length_app, Nat.add_1_r.
Qed.

Lemma refused_first_call_witness :
  exists r w',
    handle (VerifyCode 1001 1001 alice)
      {| db := db issued_once; faults := [Some "timeout"]; calls := [] |}
    = (Ok r, w')
    /\ status r = 500%nat
    /\ error r = Some "timeout"
    /\ db w' = db issued_once
    /\ length (calls w') = 1%nat.
Proof.
  apply (refused_first_call (VerifyCode 1001 1001 alice)
           {| db := db issued_once; faults := [Some "timeout"]; calls := [] |}
           "timeout" []); reflexivity.
Defined.

(** A [POST /purchase] without a name, a mobile, products or a payment
    method is answered 400 "Missing fields"; the store is unchanged and no
    store call is made. *)
Theorem purchase_missing_fields b w :
  truthy (b_name b) = false \/ truthy (b_mobile b) = false
  \/ b_products b = None \/ truthy (b_paymentMethod b) = false ->
  post_purchase b w =
    (Ok {| status := 400; success := false; message := Some "Missing fields";
           error := None; r_cashierCode := None |}, w).
Proof.
  intros H. run_handler.
  assert (negb (truthy (b_name b)) || negb (truthy (b_mobile b))
          || negb (bool_decide (is_Some (b_products b)))
          || negb (truthy (b_paymentMethod b)) = true) as ->; [|done].
  destruct H as [H|[H|[H|H]]]; rewrite H; simpl;
    by rewrite ?orb_true_r.
Qed.

Lemma purchase_missing_fields_witness :
  post_purchase alice fresh_world =
    (Ok (reply 400 false "Missing fields"), fresh_world).
Proof.
  apply (purchase_missing_fields alice fresh_world).
  right. right. left. reflexivity.
Defined.

(** No request removes, moves or rewrites a history row: the row at a
    position keeps its code, mobile and creation time; a verified row stays
    as it is; and a row that changed is now verified and carries its
    verification time. *)
Theorem history_rows_persist q w j h :
  history (db w) !! j = Some h ->
  exists h',
    history (db (handle q w).2) !! j = Some h'
    /\ h_cashierCode h' = h_cashierCode h
    /\ h_mobile h' = h_mobile h
    /\ h_createdAt h' = h_createdAt h
    /\ (h_verified h = true -> h' = h)
    /\ (h' <> h -> h_verified h' = true /\ is_Some (h_verifiedAt h')).
Proof.
  intros Hj. pose proof (handle_effects q w) as He.
  assert (Hsame : exists h', history (db w) !! j = Some h'
      /\ h_cashierCode h' = h_cashierCode h /\ h_mobile h' = h_mobile h
      /\ h_createdAt h' = h_createdAt h /\ (h_verified h = true -> h' = h)
      /\ (h' <> h -> h_verified h' = true /\ is_Some (h_verifiedAt h')))
    by (exists h; by repeat split).
  destruct q as [g t1 t2 t3 b|t1 t2 b|b]; effect_cases He; try done.
  - exists h. unfold create. rewrite lookup_app_l by by eapply lookup_lt_Some.
    by repeat split.
  - destruct (updateOne_lookup
                (unverified (mobile_of (request_body (VerifyCode t1 t2 b)))
                   (code_of b))
                (set_verified t2) _ _ _ Hj) as [Hl|[Hf Hl]].
    + exists h. by repeat split.
    + exists (set_verified t2 h). repeat split; try done.
      intros Hv. unfold unverified in Hf. rewrite Hv in Hf.
      by rewrite andb_false_r in Hf.
Qed.

Lemma history_rows_persist_witness :
  exists h',
    history (db (handle (VerifyCode 3000 3001 alice) twice_issued).2) !! 1%nat
    = Some h'
    /\ h_cashierCode h' = "482913"
    /\ h_mobile h' = "9990001111"
    /\ h_createdAt h' = 2000
    /\ (false = true -> h' = MkHistory "482913" "9990001111" false None 2000)
    /\ (h' <> MkHistory "482913" "9990001111" false None 2000 ->
        h_verified h' = true /\ is_Some (h_verifiedAt h')).
Proof.
  apply (history_rows_persist (VerifyCode 3000 3001 alice) twice_issued 1
           (MkHistory "482913" "9990001111" false None 2000)).
  reflexivity.
Defined.

(** Purchases are only ever appended: a request leaves the purchases as
    they were, or is a [POST /purchase] and adds its document at the end. *)
Theorem purchases_append_only q w :
  purchases (db (handle q w).2) = purchases (db w)
  \/ (exists b, q = SavePurchase b
      /\ purchases (db (handle q w).2) = purchases (db w) ++ [purchase_doc b]).
Proof.
  pose proof (handle_effects q w) as He.
  destruct q as [g t1 t2 t3 b|t1 t2 b|b]; effect_cases He;
    first [by left | right; by exists b].
Qed.

(** A request whose mobile is a scalar (a text, a boolean, an integer
    JavaScript holds exactly, [null] or absent) only touches the intent of
    the text of that mobile: the intents stored for any other mobile are the
    same before and after, whatever the operation, the other fields and the
    faults of the store. *)
Theorem other_mobiles_untouched q w m' :
  safe_integer (b_mobile (request_body q)) = true ->
  m' <> mobile_of (request_body q) ->
  List.filter (by_mobile m') (intents (db (handle q w).2))
  = List.filter (by_mobile m') (intents (db w)).
Proof.
  intros _ Hne. pose proof (handle_effects q w) as He.
  destruct q as [g t1 t2 t3 b|t1 t2 b|b]; simpl in Hne; effect_cases He;
    first [ done
          | by apply filter_deleteOne_other_mobile
          | by apply filter_upsert_other ].
Qed.

Lemma other_mobiles_untouched_witness :
  List.filter (by_mobile "9990002222")
    (intents (db (handle (VerifyCode 1001 1001 alice)
      {| db := {| intents := [MkCashIntent "Alice" "9990001111" "482913" 1000 901000;
                              MkCashIntent "Bob" "9990002222" "111111" 1000 901000];
                  history := []; purchases := [] |};
         faults := []; calls := [] |}).2))
  = [MkCashIntent "Bob" "9990002222" "111111" 1000 901000].
Proof.
  apply (other_mobiles_untouched (VerifyCode 1001 1001 alice)
    {| db := {| intents := [MkCashIntent "Alice" "9990001111" "482913" 1000 901000;
                            MkCashIntent "Bob" "9990002222" "111111" 1000 901000];
                history := []; purchases := [] |};
       faults := []; calls := [] |} "9990002222").
  - reflexivity.
  - vm_compute. discriminate.
Defined.

Lemma healthy_pred n fs : healthy (S n) fs = true -> healthy n fs = true.
Proof.
  revert n. induction fs as [|f fs IH]; intros n; [done|].
  destruct f as [e|]; [done|]. simpl.
  destruct n as [|n]; [done|]. apply IH.
Qed.

Lemma healthy_tail n fs : healthy (S n) fs = true -> healthy n (tail fs) = true.
Proof. destruct fs as [|[e|] fs]; by simpl. Qed.

Lemma findOne_refine {A} (f g : A -> bool) (l : list A) d :
  (forall x, g x = true -> f x = true) ->
  findOne f l = Some d -> g d = true -> findOne g l = Some d.
Proof.
  intros Hgf. induction l as [|x l IH]; simpl; [done|].
  destruct (f x) eqn:Hx.
  - intros [= ->] Hd. by rewrite Hd.
  - intros Hfind Hd. destruct (g x) eqn:Hg; [|by apply IH].
    apply Hgf in Hg. congruence.
Qed.

Lemma count_app_one {A} (f : A -> bool) (l : list A) d :
  f d = true -> countDocuments f (l ++ [d]) = S (countDocuments f l).
Proof.
  intros Hd. unfold countDocuments. rewrite List.filter_app, length_app.
  simpl. rewrite Hd. simpl. lia.
Qed.

Lemma count_updateOne {A} (f : A -> bool) (u : A -> A) (l : list A) d :
  (forall x, f (u x) = false) ->
  findOne f l = Some d ->
  S (countDocuments f (updateOne f u l)) = countDocuments f l.
Proof.
  intros Hu. unfold countDocuments.
  induction l as [|x l IH]; simpl; [discriminate|].
  destruct (f x) eqn:Hx; simpl.
  - intros _. by rewrite Hu.
  - rewrite Hx. apply IH.
Qed.

Lemma findOne_app_one {A} (f : A -> bool) (l : list A) d :
  f d = true -> is_Some (findOne f (l ++ [d])).
Proof.
  intros Hd. induction l as [|x l IH]; simpl.
  - rewrite Hd. by eexists.
  - destruct (f x); [by eexists|done].
Qed.

Lemma length_updateOne {A} (f : A -> bool) (u : A -> A) (l : list A) :
  length (updateOne f u l) = length l.
Proof.
  induction l as [|x l IH]; simpl; [done|].
  destruct (f x); simpl; by rewrite ?IH.
Qed.

(** The intent a [POST /cash-intent] that met no fault leaves for the
    mobile is found by a verification of the mobile with the issued code. *)
Lemma issued_world_found g t_date t_now t_created b b' w :
  mobile_of b' = mobile_of b -> code_of b' = g ->
  findOne (by_mobile_code (mobile_of b') (code_of b'))
    (intents (db (issued_world g t_date t_now t_created b w)))
  = Some (issued_intent g t_date t_now b).
Proof.
  intros Hm Hc. rewrite Hm, Hc. simpl.
  eapply findOne_refine; [apply by_mobile_code_by_mobile| |].
  - by apply findOne_upsert.
  - by apply by_mobile_code_true.
Qed.

Lemma issued_world_unique g t_date t_now t_created b w :
  unique_mobile (intents (db w)) ->
  unique_mobile (intents (db (issued_world g t_date t_now t_created b w))).
Proof. intros Hu. simpl. by apply unique_mobile_upsert. Qed.

(** Issue, then verify in time: a [POST /cash-intent] followed by a
    verification of the same mobile with the issued code, at a clock reading
    up to and including [expiresAt], is answered 200; the intent is consumed,
    and the mobile has as many unverified rows for the code as before the
    issue (one was added, one was marked). *)
Theorem issue_then_verify g t_date t_now t_created t_check t_verified b b' w :
  truthy (b_name b) = true ->
  truthy (b_mobile b) = true ->
  truthy (b_mobile b') = true ->
  truthy (b_cashierCode b') = true ->
  mobile_of b' = mobile_of b ->
  code_of b' = g ->
  unique_mobile (intents (db w)) ->
  healthy 5 (faults w) = true ->
  t_check <= t_now + 15 * 60 * 1000 ->
  exists w1 w2,
    post_cash_intent g t_date t_now t_created b w =
      (Ok {| status := 200; success := true; message := None; error := None;
             r_cashierCode := Some g |}, w1)
    /\ post_verify_cashier_code t_check t_verified b' w1 =
       (Ok (reply 200 true msg_verified), w2)
    /\ findOne (by_mobile (mobile_of b)) (intents (db w2)) = None
    /\ length (history (db w2)) = S (length (history (db w)))
    /\ countDocuments (unverified (mobile_of b) g) (history (db w2))
       = countDocuments (unverified (mobile_of b) g) (history (db w)).
Proof.
  intros Hn Hm Hm' Hc' Hmob Hcode Hu Hf Hle.
  assert (Hf2 : healthy 2 (faults w) = true) by by do 3 apply healthy_pred.
  assert (Hf3 : healthy 3 (tail (tail (faults w))) = true)
    by by do 2 apply healthy_tail.
  exists (issued_world g t_date t_now t_created b w).
  eexists. split; [by apply cash_intent_run|].
  split.
  { eapply verify_success_run; try done.
    - by apply issued_world_found.
    - simpl. unfold fifteen_minutes. lia. }
  assert (Hrow : unverified (mobile_of b) g (issued_row g t_created b) = true).
  { unfold unverified, issued_row. simpl. by rewrite !String.eqb_refl. }
  simpl. rewrite Hmob, Hcode. split; [|split].
  - apply unique_mobile_deleteOne_gone. by apply unique_mobile_upsert.
  - rewrite length_updateOne. unfold create. rewrite length_app. simpl. lia.
  - unfold create. fold (issued_row g t_created b).
    destruct (findOne_app_one (unverified (mobile_of b) g) (history (db w))
                (issued_row g t_created b) Hrow) as [d Hd].
    pose proof (count_updateOne (unverified (mobile_of b) g)
                  (set_verified t_verified)
                  (history (db w) ++ [issued_row g t_created b]) d) as Hcount.
    rewrite (count_app_one _ _ _ Hrow) in Hcount.
    assert (S (countDocuments (unverified (mobile_of b) g)
                 (updateOne (unverified (mobile_of b) g)
                    (set_verified t_verified)
                    (history (db w) ++ [issued_row g t_created b])))
            = S (countDocuments (unverified (mobile_of b) g) (history (db w))))
      as [= ->]; [|done].
    apply Hcount; [|done]. intros x. unfold unverified. simpl.
    by rewrite andb_false_r.
Qed.

Lemma issue_then_verify_witness :
  exists w1 w2,
    post_cash_intent "482913" 1000 1000 1000 alice fresh_world =
      (Ok {| status := 200; success := true; message := None; error := None;
             r_cashierCode := Some "482913" |}, w1)
    /\ post_verify_cashier_code 901000 901000 alice w1 =
       (Ok (reply 200 true msg_verified), w2)
    /\ findOne (by_mobile "9990001111") (intents (db w2)) = None
    /\ length (history (db w2)) = 1%nat
    /\ countDocuments (unverified "9990001111" "482913") (history (db w2))
       = 0%nat.
Proof.
  apply (issue_then_verify "482913" 1000 1000 1000 901000 901000 alice alice
           fresh_world);
    first [reflexivity | apply NoDup_nil_2 | (simpl; lia)].
Defined.

(** Issue, then verify too late: when the clock reading of the verification
    is past [expiresAt], the issued code is answered 401 "Code expired", the
    intent is removed, and the row of the issue stays unverified at the end
    of the history. *)
Theorem issue_then_verify_late g t_date t_now t_created t_check t_verified b b' w :
  truthy (b_name b) = true ->
  truthy (b_mobile b) = true ->
  truthy (b_mobile b') = true ->
  truthy (b_cashierCode b') = true ->
  mobile_of b' = mobile_of b ->
  code_of b' = g ->
  unique_mobile (intents (db w)) ->
  healthy 4 (faults w) = true ->
  t_now + 15 * 60 * 1000 < t_check ->
  exists w1 w2,
    post_cash_intent g t_date t_now t_created b w =
      (Ok {| status := 200; success := true; message := None; error := None;
             r_cashierCode := Some g |}, w1)
    /\ post_verify_cashier_code t_check t_verified b' w1 =
       (Ok (reply 401 false msg_expired), w2)
    /\ findOne (by_mobile (mobile_of b)) (intents (db w2)) = None
    /\ history (db w2) = history (db w) ++ [issued_row g t_created b].
Proof.
  intros Hn Hm Hm' Hc' Hmob Hcode Hu Hf Hlt.
  assert (Hf2 : healthy 2 (faults w) = true) by by do 2 apply healthy_pred.
  assert (Hf2' : healthy 2 (tail (tail (faults w))) = true)
    by by do 2 apply healthy_tail.
  exists (issued_world g t_date t_now t_created b w).
  eexists. split; [by apply cash_intent_run|].
  split.
  { eapply verify_expired_run; try done.
    - by apply issued_world_found.
    - simpl. unfold fifteen_minutes. lia. }
  simpl. rewrite Hmob. split; [|done].
  apply unique_mobile_deleteOne_gone. by apply unique_mobile_upsert.
Qed.

Lemma issue_then_verify_late_witness :
  exists w1 w2,
    post_cash_intent "482913" 1000 1000 1000 alice fresh_world =
      (Ok {| status := 200; success := true; message := None; error := None;
             r_cashierCode := Some "482913" |}, w1)
    /\ post_verify_cashier_code 901001 901001 alice w1 =
       (Ok (reply 401 false msg_expired), w2)
    /\ findOne (by_mobile "9990001111") (intents (db w2)) = None
    /\ history (db w2) = [MkHistory "482913" "9990001111" false None 1000].
Proof.
  apply (issue_then_verify_late "482913" 1000 1000 1000 901001 901001
           alice alice fresh_world);
    first [reflexivity | apply NoDup_nil_2 | (simpl; lia)].
Defined.

(** After an issue, only the issued code is accepted: under the invariant,
    a verification of the mobile with any other code, such as the code of an
    intent the issue replaced, is answered 401 "Invalid code" and leaves the
    store as the issue left it. *)
Theorem issue_then_other_code g t_date t_now t_created t_check t_verified b b' w :
  truthy (b_name b) = true ->
  truthy (b_mobile b) = true ->
  truthy (b_mobile b') = true ->
  truthy (b_cashierCode b') = true ->
  mobile_of b' = mobile_of b ->
  code_of b' <> g ->
  unique_mobile (intents (db w)) ->
  healthy 3 (faults w) = true ->
  exists w1 w2,
    post_cash_intent g t_date t_now t_created b w =
      (Ok {| status := 200; success := true; message := None; error := None;
             r_cashierCode := Some g |}, w1)
    /\ post_verify_cashier_code t_check t_verified b' w1 =
       (Ok (reply 401 false msg_invalid), w2)
    /\ db w2 = db w1.
Proof.
  intros Hn Hm Hm' Hc' Hmob Hcode Hu Hf.
  assert (Hf2 : healthy 2 (faults w) = true) by by apply healthy_pred.
  assert (Hf1 : healthy 1 (tail (tail (faults w))) = true)
    by by do 2 apply healthy_tail.
  exists (issued_world g t_date t_now t_created b w).
  eexists. split; [by apply cash_intent_run|].
  split; [apply verify_invalid_run; try done|reflexivity].
  apply findOne_None. intros d Hd.
  destruct (by_mobile_code (mobile_of b') (code_of b') d) eqn:Hmc; [|done].
  apply by_mobile_code_true in Hmc as [Hdm Hdc].
  assert (Hone : List.filter (by_mobile (mobile_of b))
            (intents (db (issued_world g t_date t_now t_created b w)))
          = [issued_intent g t_date t_now b]) by by apply filter_upsert.
  assert (Hin : In d (List.filter (by_mobile (mobile_of b))
            (intents (db (issued_world g t_date t_now t_created b w))))).
  { apply List.filter_In. split; [by apply list_elem_of_In|].
    apply by_mobile_true. congruence. }
  rewrite Hone in Hin. destruct Hin as [<-|[]]. simpl in Hdc. congruence.
Qed.

Lemma issue_then_other_code_witness :
  exists w1 w2,
    post_cash_intent "777777" 2000 2000 2000 alice issued_once =
      (Ok {| status := 200; success := true; message := None; error := None;
             r_cashierCode := Some "777777" |}, w1)
    /\ post_verify_cashier_code 2001 2001 alice w1 =
       (Ok (reply 401 false msg_invalid), w2)
    /\ db w2 = db w1.
Proof.
  apply (issue_then_other_code "777777" 2000 2000 2000 2001 2001 alice alice
           issued_once);
    first [reflexivity | apply NoDup_singleton | (vm_compute; discriminate)].
Defined.

(** A [POST /cash-intent] for a mobile that already has an intent replaces
    it, expired or not, and one for a mobile without intent adds one: the
    number of intents grows only in the second case.  Either way the intent
    found for the mobile afterwards is the new one, and one unverified row is
    appended to the history. *)
Theorem reissue_replaces_intent g t_date t_now t_created b w :
  truthy (b_name b) = true ->
  truthy (b_mobile b) = true ->
  healthy 2 (faults w) = true ->
  exists w',
    post_cash_intent g t_date t_now t_created b w =
      (Ok {| status := 200; success := true; message := None; error := None;
             r_cashierCode := Some g |}, w')
    /\ length (intents (db w')) =
       (length (intents (db w))
        + match findOne (by_mobile (mobile_of b)) (intents (db w)) with
          | Some _ => 0
          | None => 1
          end)%nat
    /\ findOne (by_mobile (mobile_of b)) (intents (db w'))
       = Some (issued_intent g t_date t_now b)
    /\ history (db w') = history (db w) ++ [issued_row g t_created b].
Proof.
  intros Hn Hm Hf. exists (issued_world g t_date t_now t_created b w).
  split; [by apply cash_intent_run|]. simpl.
  split; [|split; [by apply findOne_upsert|done]].
  unfold findOneAndUpdate, create.
  destruct (findOne (by_mobile (mobile_of b)) (intents (db w))).
  - rewrite length_updateOne. lia.
  - by rewrite length_app.
Qed.

Lemma reissue_replaces_intent_witness :
  exists w',
    post_cash_intent "777777" 2000 2000 2000 alice issued_once =
      (Ok {| status := 200; success := true; message := None; error := None;
             r_cashierCode := Some "777777" |}, w')
    /\ length (intents (db w')) = 1%nat
    /\ findOne (by_mobile "9990001111") (intents (db w'))
       = Some (MkCashIntent "Alice" "9990001111" "777777" 2000 902000)
    /\ history (db w') =
       [MkHistory "482913" "9990001111" false None 1000;
        MkHistory "777777" "9990001111" false None 2000].
Proof.
  apply (reissue_replaces_intent "777777" 2000 2000 2000 alice issued_once);
    reflexivity.
Defined.

(** The success path of a verification is not atomic: when the [findOne]
    and the [deleteOne] go through and the history [updateOne] is refused,
    the answer is 500 while the intent is gone and no row is marked; under
    the invariant the code cannot be verified again. *)
Theorem verify_not_atomic t_check t_verified b w i e fs :
  truthy (b_mobile b) = true ->
  truthy (b_cashierCode b) = true ->
  faults w = None :: None :: Some e :: fs ->
  findOne (by_mobile_code (mobile_of b) (code_of b)) (intents (db w)) = Some i ->
  t_check <= ci_expiresAt i ->
  exists w',
    post_verify_cashier_code t_check t_verified b w =
      (Ok {| status := 500; success := false;
             message := Some (cross_mark ++ " Server error")%string;
             error := Some e; r_cashierCode := None |}, w')
    /\ intents (db w') = deleteOne (by_mobile (mobile_of b)) (intents (db w))
    /\ history (db w') = history (db w)
    /\ (unique_mobile (intents (db w)) ->
        findOne (by_mobile_code (mobile_of b) (code_of b)) (intents (db w'))
        = None).
Proof.
  intros Hm Hc Hfs Hfind Hle. destruct w as [s fs0 cs]. simpl in Hfs.
  subst fs0.
  assert (Hgt : (t_check >? ci_expiresAt i) = false)
    by (destruct (Z.gtb_spec t_check (ci_expiresAt i)); [lia|done]).
  assert (Hgone : unique_mobile (intents s) ->
    findOne (by_mobile_code (mobile_of b) (code_of b))
      (deleteOne (by_mobile (mobile_of b)) (intents s)) = None).
  { intros Hu. by apply findOne_code_None, unique_mobile_deleteOne_gone. }
  run_handler. rewrite Hm, Hc. simpl. rewrite Hfind, Hgt. simpl.
  eexists. split; [reflexivity|]. by simpl.
Qed.

Lemma verify_not_atomic_witness :
  exists w',
    post_verify_cashier_code 1001 1001 alice
      {| db := db issued_once; faults := [None; None; Some "write refused"];
         calls := [] |} =
      (Ok (reply_error (cross_mark ++ " Server error")%string "write refused"),
       w')
    /\ intents (db w') = []
    /\ history (db w') = [MkHistory "482913" "9990001111" false None 1000]
    /\ (unique_mobile (intents (db issued_once)) ->
        findOne (by_mobile_code "9990001111" "482913") (intents (db w')) = None).
Proof.
  apply (verify_not_atomic 1001 1001 alice
           {| db := db issued_once;
              faults := [None; None; Some "write refused"]; calls := [] |}
           (MkCashIntent "Alice" "9990001111" "482913" 1000 901000)
           "write refused" []);
    first [reflexivity | (simpl; lia)].
Defined.

Lemma js_String_truthy v : truthy v = true -> js_String v <> "".
Proof.
  destruct v as [| |[]|n|s]; simpl; try done.
  - intros _. destruct (Z.to_int n) as [u|u]; [by destruct u|done].
  - intros H E. subst s. done.
Qed.

(** The code is compared as text: a verification whose code is a scalar
    that is not falsy, such as [true] or an integer JavaScript holds exactly
    ([|n| <= 2^53 - 1], printed by [String] as its decimal digits), is
    handled exactly as the one carrying the text [String(cashierCode)]. *)
Theorem code_compared_as_text t_check t_verified b w :
  safe_integer (b_cashierCode b) = true ->
  truthy (b_cashierCode b) = true ->
  post_verify_cashier_code t_check t_verified (with_text_code b) w
  = post_verify_cashier_code t_check t_verified b w.
Proof.
  intros _ Hc. unfold post_verify_cashier_code, with_text_code. simpl.
  rewrite Hc.
  assert (negb (js_String (b_cashierCode b) =? "")%string = true) as ->; [|done].
  apply negb_true_iff, String.eqb_neq. by apply js_String_truthy.
Qed.

Lemma code_compared_as_text_witness :
  post_verify_cashier_code 1001 1001
    (with_text_code
       {| b_name := JUndefined; b_mobile := JStr "9990001111";
          b_email := JUndefined; b_products := None;
          b_paymentMethod := JUndefined; b_cashierCode := JNum 482913 |})
    issued_once
  = post_verify_cashier_code 1001 1001
      {| b_name := JUndefined; b_mobile := JStr "9990001111";
         b_email := JUndefined; b_products := None;
         b_paymentMethod := JUndefined; b_cashierCode := JNum 482913 |}
      issued_once.
Proof.
  apply (code_compared_as_text 1001 1001
           {| b_name := JUndefined; b_mobile := JStr "9990001111";
              b_email := JUndefined; b_products := None;
              b_paymentMethod := JUndefined; b_cashierCode := JNum 482913 |}
           issued_once); reflexivity.
Defined.

(** The number 0 is a falsy code: it is refused as missing, where the text
    "0" is looked up. *)
Example zero_code_is_missing :
  (post_verify_cashier_code 1001 1001
     {| b_name := JUndefined; b_mobile := JStr "9990001111";
        b_email := JUndefined; b_products := None;
        b_paymentMethod := JUndefined; b_cashierCode := JNum 0 |}
     issued_once).1 = Ok (reply 400 false "Missing mobile or code")
  /\ (post_verify_cashier_code 1001 1001
        {| b_name := JUndefined; b_mobile := JStr "9990001111";
           b_email := JUndefined; b_products := None;
           b_paymentMethod := JUndefined; b_cashierCode := JStr "0" |}
        issued_once).1 = Ok (reply 401 false msg_invalid).
Proof. by split. Qed.

(** A [POST /purchase] whose payment method is not exactly the text "cash"
    never touches the intents nor the history, whatever else the body holds
    and whatever the store does. *)
Theorem non_cash_purchase_keeps_intents b w :
  strict_eq_str (b_paymentMethod b) "cash" = false ->
  intents (db (post_purchase b w).2) = intents (db w)
  /\ history (db (post_purchase b w).2) = history (db w).
Proof.
  intros Hpm. destruct w as [s fs cs]. run_handler. rewrite Hpm.
  destruct (negb (truthy (b_name b)) || negb (truthy (b_mobile b))
            || negb (bool_decide (is_Some (b_products b)))
            || negb (truthy (b_paymentMethod b))); simpl; [done|].
  by destruct fs as [|[e|] fs].
Qed.

Lemma non_cash_purchase_keeps_intents_witness :
  intents (db (post_purchase
     {| b_name := JStr "Alice"; b_mobile := JStr "9990001111";
        b_email := JUndefined; b_products := Some ["milk"];
        b_paymentMethod := JStr "Cash"; b_cashierCode := JStr "482913" |}
     issued_once).2) = intents (db issued_once)
  /\ history (db (post_purchase
     {| b_name := JStr "Alice"; b_mobile := JStr "9990001111";
        b_email := JUndefined; b_products := Some ["milk"];
        b_paymentMethod := JStr "Cash"; b_cashierCode := JStr "482913" |}
     issued_once).2) = history (db issued_once).
Proof.
  apply (non_cash_purchase_keeps_intents
     {| b_name := JStr "Alice"; b_mobile := JStr "9990001111";
        b_email := JUndefined; b_products := Some ["milk"];
        b_paymentMethod := JStr "Cash"; b_cashierCode := JStr "482913" |}
     issued_once).
  reflexivity.
Defined.

(** A [POST /purchase] that passes the guard and meets no fault is answered
    200 and appends one document: the fields of the body as they came, with
    the body's cashier code when the method is "cash" and [null] otherwise.
    The code is not compared with any intent, and the history is not
    touched. *)
Theorem purchase_saved b w :
  passes_guard (SavePurchase b) = true ->
  healthy 2 (faults w) = true ->
  exists w',
    post_purchase b w =
      (Ok {| status := 200; success := true; message := Some "Purchase saved";
             error := None; r_cashierCode := None |}, w')
    /\ purchases (db w') = purchases (db w) ++ [purchase_doc b]
    /\ history (db w') = history (db w)
    /\ p_cashierCode (purchase_doc b) =
       (if strict_eq_str (b_paymentMethod b) "cash" then b_cashierCode b
        else JNull).
Proof.
  intros Hg Hf. simpl in Hg.
  repeat (apply andb_true_iff in Hg as [Hg ?]).
  destruct w as [s fs cs]. cbn [faults] in Hf.
  healthy_cases Hf; run_handler;
    repeat match goal with H : _ = true |- _ => rewrite H; clear H end; simpl;
    destruct (strict_eq_str (b_paymentMethod b) "cash") eqn:Hpm; simpl;
    eexists; (split; [reflexivity|]); simpl; unfold purchase_doc;
    by rewrite Hpm.
Qed.

Lemma purchase_saved_witness :
  exists w',
    post_purchase cash_purchase fresh_world =
      (Ok (reply 200 true "Purchase saved"), w')
    /\ purchases (db w') =
       [MkPurchase (JStr "Alice") (JStr "9990001111") (Some ["milk"])
          (JStr "cash") (JStr "482913")]
    /\ history (db w') = []
    /\ p_cashierCode (purchase_doc cash_purchase) = JStr "482913".
Proof.
  apply (purchase_saved cash_purchase fresh_world); reflexivity.
Defined.

Lemma Forall_updateOne {A} (P : A -> Prop) (f : A -> bool) (u : A -> A) l :
  (forall x, P (u x)) -> Forall P l -> Forall P (updateOne f u l).
Proof.
  intros Hu. induction 1 as [|x l Hx Hl IH]; simpl; [done|].
  destruct (f x); constructor; auto.
Qed.

Lemma handle_keeps_stamped q :
  keeps (fun s => Forall stamped (history s)) (handle q).
Proof.
  intros w Hw. pose proof (handle_effects q w) as He.
  destruct q as [g t1 t2 t3 b|t1 t2 b|b]; effect_cases He; try done.
  - apply Forall_app. split; [done|]. apply Forall_singleton.
    split; [done|]. by intros [? ?].
  - apply Forall_updateOne; [|done]. intros x. split; [by eexists|done].
Qed.

(** In every store the handlers can build from the empty one, whatever the
    faults, a history row is verified exactly when it carries a verification
    time. *)
Theorem reachable_rows_stamped s h :
  reachable s ->
  h ∈ history s ->
  h_verified h = true <-> is_Some (h_verifiedAt h).
Proof.
  intros Hr. revert h. apply Forall_forall.
  induction Hr as [|s q fs cs _ IH]; [by apply Forall_nil|].
  by apply (handle_keeps_stamped q {| db := s; faults := fs; calls := cs |}).
Qed.

Lemma reachable_rows_stamped_witness :
  true = true <-> is_Some (Some 3001).
Proof.
  apply (reachable_rows_stamped
           (db (handle (VerifyCode 3000 3001 alice)
                  {| db := db (handle (RequestIntent "482913" 1000 1000 1000 alice)
                                 fresh_world).2;
                     faults := []; calls := [] |}).2)
           (MkHistory "482913" "9990001111" true (Some 3001) 1000)).
  - apply reach_step, (reach_step empty_store _ [] []), reach_empty.
  - vm_compute. apply list_elem_of_here.
Defined.

(** ** Listings *)

Section SortDesc.
Context {A : Type} (key : A -> Z).

#[local] Instance newer_first_trans : Transitive (newer_first key).
Proof. intros x y z. unfold newer_first. lia. Qed.

#[local] Instance newer_first_total : Total (newer_first key).
Proof. intros x y. unfold newer_first. lia. Qed.

Lemma sort_desc_Permutation l : sort_desc key l ≡ₚ l.
Proof. apply merge_sort_Permutation. Qed.

Lemma StronglySorted_lookup (R : relation A) l i j a b :
  StronglySorted R l -> (i < j)%nat ->
  l !! i = Some a -> l !! j = Some b -> R a b.
Proof.
  intros Hs. revert i j. induction Hs as [|x l Hs IH Hx]; intros i j; [done|].
  destruct i as [|i], j as [|j]; simpl; try lia.
  - intros _ [= <-] Hb. rewrite Forall_forall in Hx. apply Hx.
    by eapply list_elem_of_lookup_2.
  - intros Hij. apply IH. lia.
Qed.

Lemma sort_desc_sorted l i j a b :
  (i <= j)%nat ->
  sort_desc key l !! i = Some a -> sort_desc key l !! j = Some b ->
  key b <= key a.
Proof.
  intros Hij Ha Hb. destruct (decide (i = j)) as [->|Hne].
  - assert (a = b) as -> by congruence. lia.
  - apply (StronglySorted_lookup (newer_first key) (sort_desc key l) i j);
      [apply StronglySorted_merge_sort; apply _ | lia | done..].
Qed.

Lemma sort_desc_elem_of l x : x ∈ sort_desc key l <-> x ∈ l.
Proof. by rewrite sort_desc_Permutation. Qed.
End SortDesc.

Lemma filter_Permutation_bool {A} (f : A -> bool) (l k : list A) :
  l ≡ₚ k -> List.filter f l ≡ₚ List.filter f k.
Proof.
  induction 1 as [|x l k _ IH|x y l|l k m _ IH1 _ IH2]; simpl.
  - done.
  - destruct (f x); [by constructor|done].
  - destruct (f x), (f y); try done. apply perm_swap.
  - by etrans.
Qed.

Lemma elem_of_filter_bool {A} (f : A -> bool) (l : list A) x :
  x ∈ List.filter f l <-> x ∈ l /\ f x = true.
Proof. by rewrite !list_elem_of_In, List.filter_In. Qed.


Lemma paid_by_true method p :
  paid_by method p = true <-> p_paymentMethod p = JStr method.
Proof.
  unfold paid_by, strict_eq_str. destruct (p_paymentMethod p); try done.
  rewrite String.eqb_eq. split; congruence.
Qed.

(** [GET /cash-intents] and [GET /cashier-code-history] answer 200 with all
    the documents of their collection, each once, greater [date]
    (respectively [createdAt]) first; when the store throws they answer 500
    with its message and no documents. *)
Theorem flow_listings s :
  (exists l,
     get_cash_intents None s =
       {| a_status := 200; a_success := true; a_payload := Some l;
          a_message := None; a_error := None |}
     /\ l ≡ₚ intents s
     /\ forall i j a b, (i <= j)%nat -> l !! i = Some a -> l !! j = Some b ->
          ci_date b <= ci_date a)
  /\ (exists l,
        get_cashier_code_history None s =
          {| a_status := 200; a_success := true; a_payload := Some l;
             a_message := None; a_error := None |}
        /\ l ≡ₚ history s
        /\ forall i j a b, (i <= j)%nat -> l !! i = Some a -> l !! j = Some b ->
             h_createdAt b <= h_createdAt a)
  /\ (forall e,
        get_cash_intents (Some e) s =
          {| a_status := 500; a_success := false; a_payload := None;
             a_message := Some "Error fetching cash intents";
             a_error := Some e |}
        /\ get_cashier_code_history (Some e) s =
          {| a_status := 500; a_success := false; a_payload := None;
             a_message := Some "Error fetching code history";
             a_error := Some e |}).
Proof.
  split; [|split].
  - exists (sort_desc ci_date (intents s)). split; [done|].
    split; [apply sort_desc_Permutation|]. intros i j a b.
    apply sort_desc_sorted.
  - exists (sort_desc h_createdAt (history s)). split; [done|].
    split; [apply sort_desc_Permutation|]. intros i j a b.
    apply sort_desc_sorted.
  - done.
Qed.


(** Issue, then list: after a [POST /cash-intent] that met no fault, in a
    store with at most one intent per mobile, [GET /cash-intents] shows one
    intent for the mobile, the one just issued. *)
Theorem issued_intent_listed g t_date t_now t_created b w :
  truthy (b_name b) = true ->
  truthy (b_mobile b) = true ->
  healthy 2 (faults w) = true ->
  unique_mobile (intents (db w)) ->
  exists w' l,
    post_cash_intent g t_date t_now t_created b w =
      (Ok {| status := 200; success := true; message := None; error := None;
             r_cashierCode := Some g |}, w')
    /\ get_cash_intents None (db w') = send l
    /\ List.filter (by_mobile (mobile_of b)) l
       = [issued_intent g t_date t_now b].
Proof.
  intros Hn Hm Hf Hu. exists (issued_world g t_date t_now t_created b w).
  eexists. split; [by apply cash_intent_run|]. split; [reflexivity|].
  apply Permutation_singleton_r.
  rewrite (filter_Permutation_bool _ _ _ (sort_desc_Permutation ci_date _)).
  simpl. by rewrite filter_upsert.
Qed.

Lemma issued_intent_listed_witness :
  exists w' l,
    post_cash_intent "777777" 2000 2000 2000 alice issued_once =
      (Ok {| status := 200; success := true; message := None; error := None;
             r_cashierCode := Some "777777" |}, w')
    /\ get_cash_intents None (db w') = send l
    /\ List.filter (by_mobile "9990001111") l
       = [MkCashIntent "Alice" "9990001111" "777777" 2000 902000].
Proof.
  apply (issued_intent_listed "777777" 2000 2000 2000 alice issued_once);
    first [reflexivity | apply NoDup_singleton].
Defined.

(** Save, then list: the document of a [POST /purchase] that met no fault
    is in [/purchase-history]; it is in [/purchases/cash] exactly when its
    method is the text "cash" and in [/purchases/online] exactly when it is
    "online". *)
Theorem saved_purchase_listed p_date b w :
  passes_guard (SavePurchase b) = true ->
  healthy 2 (faults w) = true ->
  exists w' all cash online,
    post_purchase b w = (Ok (reply 200 true "Purchase saved"), w')
    /\ get_purchase_history p_date None (db w') = send all
    /\ get_purchases_cash p_date None (db w') = send cash
    /\ get_purchases_online p_date None (db w') = send online
    /\ purchase_doc b ∈ all
    /\ (purchase_doc b ∈ cash <-> b_paymentMethod b = JStr "cash")
    /\ (purchase_doc b ∈ online <-> b_paymentMethod b = JStr "online").
Proof.
  intros Hg Hf.
  assert (Hsaved : exists w',
    post_purchase b w = (Ok (reply 200 true "Purchase saved"), w')
    /\ purchases (db w') = purchases (db w) ++ [purchase_doc b]).
  { simpl in Hg. repeat (apply andb_true_iff in Hg as [Hg ?]).
    destruct w as [s fs cs]. cbn [faults] in Hf.
    healthy_cases Hf; run_handler;
      repeat match goal with H : _ = true |- _ => rewrite H; clear H end;
      simpl; destruct (strict_eq_str (b_paymentMethod b) "cash") eqn:Hpm;
      simpl; eexists; (split; [reflexivity|]); simpl; unfold purchase_doc;
      by rewrite Hpm. }
  destruct Hsaved as (w' & Hrun & Hp). exists w'. do 3 eexists.
  split; [exact Hrun|]. do 3 (split; [reflexivity|]).
  assert (Hin : purchase_doc b ∈ purchases (db w'))
    by (rewrite Hp; apply elem_of_app; right; apply list_elem_of_here).
  split; [by apply sort_desc_elem_of|].
  split; rewrite sort_desc_elem_of, elem_of_filter_bool, paid_by_true;
    simpl; tauto.
Qed.

Lemma saved_purchase_listed_witness :
  exists w' all cash online,
    post_purchase cash_purchase fresh_world =
      (Ok (reply 200 true "Purchase saved"), w')
    /\ get_purchase_history (fun _ => 0) None (db w') = send all
    /\ get_purchases_cash (fun _ => 0) None (db w') = send cash
    /\ get_purchases_online (fun _ => 0) None (db w') = send online
    /\ purchase_doc cash_purchase ∈ all
    /\ (purchase_doc cash_purchase ∈ cash <-> JStr "cash" = JStr "cash")
    /\ (purchase_doc cash_purchase ∈ online <-> JStr "cash" = JStr "online").
Proof.
  apply (saved_purchase_listed (fun _ => 0) cash_purchase fresh_world);
    reflexivity.
Defined.

(** [GET /product/:barcode]: the answer is 404 exactly when no product has
    the barcode; a product sent has the barcode asked for and is the first
    such product of the collection; when the store throws, the answer is 500
    with its message. *)
Theorem product_lookup (Product : Type) (barcode : Product -> string)
    (products : list Product) (param : string) :
  (a_status (get_product Product barcode None products param) = 404%nat <->
   forall p, p ∈ products -> barcode p <> param)
  /\ (forall p,
        a_payload (get_product Product barcode None products param) = Some p ->
        a_status (get_product Product barcode None products param) = 200%nat
        /\ barcode p = param
        /\ exists k, products !! k = Some p
             /\ forall j q, (j < k)%nat -> products !! j = Some q ->
                  barcode q <> param)
  /\ (forall e,
        get_product Product barcode (Some e) products param =
          {| a_status := 500; a_success := false; a_payload := None;
             a_message := Some "Server error"; a_error := Some e |}).
Proof.
  unfold get_product.
  set (f := fun p : Product => (barcode p =? param)%string).
  assert (Hf : forall p, f p = false <-> barcode p <> param)
    by (intros p; apply String.eqb_neq).
  split; [|split; [|done]].
  - destruct (findOne f products) as [p|] eqn:Hfind; simpl.
    + split; [done|]. intros Hnone.
      apply findOne_Some in Hfind as [Hin Hp].
      apply Hnone in Hin. apply Hf in Hin. congruence.
    + split; [|done]. intros _ p Hp. apply Hf.
      by apply (proj1 (findOne_None f products) Hfind).
  - intros p. rewrite (findOne_firstIndex f products).
    destruct (firstIndex f products) as [k|] eqn:Hk; simpl; [|done].
    apply firstIndex_Some in Hk as (d & Hd & Hfd & Hmin).
    rewrite Hd. simpl. intros [= <-]. split; [done|].
    split; [by apply String.eqb_eq|].
    exists k. split; [done|]. intros j q Hj Hq. apply Hf. by eapply Hmin.
Qed.

(** ** Upserts on a collection keyed by a text *)

Section KeyedUpsert.
Context {A : Type} (key : A -> string).
Variables (m : string) (doc : A).
Hypothesis doc_key : key doc = m.

Lemma has_key_true k x : has_key key k x = true <-> key x = k.
Proof. apply String.eqb_eq. Qed.

Lemma has_key_false k x : has_key key k x = false <-> key x <> k.
Proof. apply String.eqb_neq. Qed.

Lemma has_key_doc : has_key key m doc = true.
Proof. by apply has_key_true. Qed.

Lemma keyed_update_keys l :
  key <$> updateOne (has_key key m) (fun _ => doc) l = key <$> l.
Proof.
  induction l as [|x l IH]; [done|]. simpl updateOne.
  destruct (has_key key m x) eqn:Hx; rewrite !fmap_cons.
  - apply has_key_true in Hx. by rewrite doc_key, Hx.
  - by rewrite IH.
Qed.

Lemma keyed_filter_none k l :
  (forall y, y ∈ l -> has_key key k y = false) ->
  List.filter (has_key key k) l = [].
Proof.
  induction l as [|y l IH]; simpl; [done|]. intros Hnone.
  rewrite (Hnone y) by left. apply IH. intros z Hz. apply Hnone. by right.
Qed.

Lemma keyed_upsert_NoDup l :
  NoDup (key <$> l) ->
  NoDup (key <$> findOneAndUpdate (has_key key m) (fun _ => doc) doc l).
Proof.
  unfold findOneAndUpdate, create. intros H.
  destruct (findOne (has_key key m) l) eqn:Hfind.
  - by rewrite keyed_update_keys.
  - rewrite fmap_app. apply NoDup_app. split; [done|]. split.
    + intros x (j & -> & Hj)%list_elem_of_fmap Hin.
      apply list_elem_of_singleton in Hin.
      rewrite findOne_None in Hfind. apply Hfind in Hj.
      apply has_key_false in Hj. congruence.
    + apply NoDup_singleton.
Qed.

Lemma keyed_update_own l :
  is_Some (findOne (has_key key m) l) -> NoDup (key <$> l) ->
  List.filter (has_key key m) (updateOne (has_key key m) (fun _ => doc) l)
  = [doc].
Proof.
  induction l as [|x l IH]; [by intros []|].
  intros Hsome Hnd. rewrite fmap_cons in Hnd.
  apply NoDup_cons in Hnd as [Hx Hl]. simpl in *.
  destruct (has_key key m x) eqn:Hm; simpl.
  - rewrite has_key_doc. f_equal. apply has_key_true in Hm.
    apply keyed_filter_none. intros y Hy. apply has_key_false.
    intros E. apply Hx. apply list_elem_of_fmap. exists y.
    split; [congruence|done].
  - rewrite Hm. by apply IH.
Qed.

Lemma keyed_upsert_own l :
  NoDup (key <$> l) ->
  List.filter (has_key key m)
    (findOneAndUpdate (has_key key m) (fun _ => doc) doc l) = [doc].
Proof.
  intros Hnd. unfold findOneAndUpdate, create.
  destruct (findOne (has_key key m) l) as [c|] eqn:Hfind.
  - apply keyed_update_own; [by exists c|done].
  - rewrite List.filter_app. simpl. rewrite has_key_doc.
    rewrite keyed_filter_none; [done|]. by apply findOne_None.
Qed.

Lemma keyed_upsert_other k l :
  k <> m ->
  List.filter (has_key key k)
    (findOneAndUpdate (has_key key m) (fun _ => doc) doc l)
  = List.filter (has_key key k) l.
Proof.
  intros Hne.
  assert (Hdoc : has_key key k doc = false)
    by (apply has_key_false; congruence).
  unfold findOneAndUpdate, create.
  destruct (findOne (has_key key m) l) as [c|].
  - induction l as [|x l IH]; simpl; [done|].
    destruct (has_key key m x) eqn:Hx; simpl.
    + rewrite Hdoc. apply has_key_true in Hx.
      assert (has_key key k x = false) as ->; [|done].
      apply has_key_false. congruence.
    + by rewrite IH.
  - rewrite List.filter_app. simpl. rewrite Hdoc. apply app_nil_r.
Qed.

Lemma keyed_update_idem l :
  updateOne (has_key key m) (fun _ => doc)
    (updateOne (has_key key m) (fun _ => doc) l)
  = updateOne (has_key key m) (fun _ => doc) l.
Proof.
  induction l as [|x l IH]; simpl; [done|].
  destruct (has_key key m x) eqn:Hx; simpl.
  - by rewrite has_key_doc.
  - by rewrite Hx, IH.
Qed.

Lemma keyed_update_appended l :
  findOne (has_key key m) l = None ->
  findOne (has_key key m) (l ++ [doc]) = Some doc
  /\ updateOne (has_key key m) (fun _ => doc) (l ++ [doc]) = l ++ [doc].
Proof.
  induction l as [|x l IH]; simpl.
  - intros _. by rewrite has_key_doc.
  - destruct (has_key key m x); [done|]. intros Hnone.
    destruct (IH Hnone) as [-> ->]. done.
Qed.

Lemma keyed_update_found l :
  is_Some (findOne (has_key key m) l) ->
  is_Some (findOne (has_key key m)
             (updateOne (has_key key m) (fun _ => doc) l)).
Proof.
  induction l as [|x l IH]; simpl; [done|].
  destruct (has_key key m x) eqn:Hx; simpl.
  - rewrite has_key_doc. by eexists.
  - by rewrite Hx.
Qed.

(** Saving the same document again changes nothing. *)
Lemma keyed_upsert_idem l :
  findOneAndUpdate (has_key key m) (fun _ => doc) doc
    (findOneAndUpdate (has_key key m) (fun _ => doc) doc l)
  = findOneAndUpdate (has_key key m) (fun _ => doc) doc l.
Proof.
  unfold findOneAndUpdate at 2 3. unfold create.
  destruct (findOne (has_key key m) l) as [c|] eqn:Hfind.
  - unfold findOneAndUpdate.
    destruct (keyed_update_found l) as [d ->]; [by exists c|].
    apply keyed_update_idem.
  - unfold findOneAndUpdate.
    destruct (keyed_update_appended l Hfind) as [-> ->]. done.
Qed.
End KeyedUpsert.

(** The customer [POST /customer] writes. *)
Lemma post_customer_saved b customers :
  truthy (b_name b) = true ->
  truthy (b_mobile b) = true ->
  truthy (b_email b) = true ->
  post_customer None b customers =
    (reply 200 true "Customer saved",
     findOneAndUpdate (has_key c_mobile (mobile_of b))
       (fun _ => MkCustomer (castString (b_name b)) (mobile_of b)
                   (castString (b_email b)))
       (MkCustomer (castString (b_name b)) (mobile_of b)
          (castString (b_email b))) customers).
Proof. intros Hn Hm He. unfold post_customer. by rewrite Hn, Hm, He. Qed.

(** [POST /customer] with a name, a mobile and an email, on customers with
    at most one document per mobile and a store that does not throw: the
    answer is 200, there is still at most one customer per mobile, the
    customer of the mobile is the one of the body (replacing a former one),
    the customers of other mobiles are as before, saving the same body again
    changes nothing, and [GET /customers] shows that one customer for the
    mobile. *)
Theorem customer_saved c_createdAt b customers :
  truthy (b_name b) = true ->
  truthy (b_mobile b) = true ->
  truthy (b_email b) = true ->
  NoDup (c_mobile <$> customers) ->
  exists customers' l,
    post_customer None b customers =
      ({| status := 200; success := true; message := Some "Customer saved";
          error := None; r_cashierCode := None |}, customers')
    /\ NoDup (c_mobile <$> customers')
    /\ List.filter (by_customer_mobile (mobile_of b)) customers' =
       [MkCustomer (castString (b_name b)) (mobile_of b)
          (castString (b_email b))]
    /\ (forall m', m' <> mobile_of b ->
          List.filter (by_customer_mobile m') customers'
          = List.filter (by_customer_mobile m') customers)
    /\ (post_customer None b customers').2 = customers'
    /\ get_customers c_createdAt None customers' = send l
    /\ List.filter (by_customer_mobile (mobile_of b)) l =
       [MkCustomer (castString (b_name b)) (mobile_of b)
          (castString (b_email b))].
Proof.
  intros Hn Hm He Hnd. do 2 eexists.
  split; [by apply post_customer_saved|].
  split; [by apply keyed_upsert_NoDup|].
  split; [by apply (keyed_upsert_own c_mobile)|].
  split; [intros m' Hm'; by apply (keyed_upsert_other c_mobile)|].
  split.
  { rewrite post_customer_saved by done. simpl.
    by apply (keyed_upsert_idem c_mobile). }
  split; [reflexivity|].
  apply Permutation_singleton_r.
  rewrite (filter_Permutation_bool _ _ _ (sort_desc_Permutation c_createdAt _)).
  by rewrite (keyed_upsert_own c_mobile).
Qed.

Lemma customer_saved_witness :
  exists customers' l,
    post_customer None
      {| b_name := JStr "Alice"; b_mobile := JNum 9990001111;
         b_email := JStr "alice@example.org"; b_products := None;
         b_paymentMethod := JUndefined; b_cashierCode := JUndefined |}
      [MkCustomer "Al" "9990001111" "al@example.org"] =
      (reply 200 true "Customer saved", customers')
    /\ NoDup (c_mobile <$> customers')
    /\ List.filter (by_customer_mobile "9990001111") customers' =
       [MkCustomer "Alice" "9990001111" "alice@example.org"]
    /\ (forall m', m' <> "9990001111" ->
          List.filter (by_customer_mobile m') customers'
          = List.filter (by_customer_mobile m')
              [MkCustomer "Al" "9990001111" "al@example.org"])
    /\ (post_customer None
          {| b_name := JStr "Alice"; b_mobile := JNum 9990001111;
             b_email := JStr "alice@example.org"; b_products := None;
             b_paymentMethod := JUndefined; b_cashierCode := JUndefined |}
          customers').2 = customers'
    /\ get_customers (fun _ => 0) None customers' = send l
    /\ List.filter (by_customer_mobile "9990001111") l =
       [MkCustomer "Alice" "9990001111" "alice@example.org"].
Proof.
  apply (customer_saved (fun _ => 0)
    {| b_name := JStr "Alice"; b_mobile := JNum 9990001111;
       b_email := JStr "alice@example.org"; b_products := None;
       b_paymentMethod := JUndefined; b_cashierCode := JUndefined |}
    [MkCustomer "Al" "9990001111" "al@example.org"]);
    first [reflexivity | apply NoDup_singleton].
Defined.

(** [POST /customer] changes the customers only when it answers 200: a
    body without name, mobile or email is answered 400 and a throw of the
    store 500 with its message, both with the customers as they were. *)
Theorem customer_unchanged_unless_saved fault b customers :
  status (post_customer fault b customers).1 <> 200%nat ->
  (post_customer fault b customers).2 = customers
  /\ (status (post_customer fault b customers).1 = 400%nat
      \/ exists e, fault = Some e
           /\ (post_customer fault b customers).1
              = reply_error "Database error" e).
Proof.
  unfold post_customer.
  destruct (negb (truthy (b_name b)) || negb (truthy (b_mobile b))
            || negb (truthy (b_email b))); simpl; [by auto|].
  destruct fault as [e|]; simpl; [|done].
  intros _. split; [done|]. right. by exists e.
Qed.

Lemma customer_unchanged_unless_saved_witness :
  (post_customer (Some "timeout") alice []).2 = []
  /\ (status (post_customer (Some "timeout") alice []).1 = 400%nat
      \/ exists e, Some "timeout" = Some e
           /\ (post_customer (Some "timeout") alice []).1
              = reply_error "Database error" e).
Proof.
  apply (customer_unchanged_unless_saved (Some "timeout") alice []).
  vm_compute. discriminate.
Defined.

Lemma Forall_deleteOne {A} (P : A -> Prop) (f : A -> bool) l :
  Forall P l -> Forall P (deleteOne f l).
Proof.
  induction 1 as [|x l Hx Hl IH]; simpl; [done|].
  destruct (f x); [done|by constructor].
Qed.

Lemma Forall_upsert {A} (P : A -> Prop) (f : A -> bool) doc l :
  P doc -> Forall P l -> Forall P (findOneAndUpdate f (fun _ => doc) doc l).
Proof.
  intros Hdoc Hl. unfold findOneAndUpdate, create.
  destruct (findOne f l).
  - by apply Forall_updateOne.
  - apply Forall_app. split; [done|by apply Forall_singleton].
Qed.

Lemma handle_keeps_named q :
  keeps (fun s => Forall named (intents s)) (handle q).
Proof.
  destruct q as [g t1 t2 t3 b|t1 t2 b|b]; cbn [handle].
  - unfold post_cash_intent.
    destruct (truthy (b_name b)) eqn:Hn, (truthy (b_mobile b)) eqn:Hm;
      simpl; try apply keeps_ret.
    apply keeps_try_catch; [|intros e; apply keeps_ret].
    apply keeps_bind; [|intros _; apply keeps_bind;
      [by apply keeps_store_call|intros _; apply keeps_ret]].
    apply keeps_store_call. intros s Hs. simpl.
    apply Forall_upsert; [|done].
    split; simpl; by apply js_String_truthy.
  - unfold post_verify_cashier_code.
    destruct (negb (truthy (b_mobile b)) || negb (truthy (b_cashierCode b)));
      [apply keeps_ret|].
    apply keeps_try_catch; [|intros e; apply keeps_ret].
    apply keeps_bind; [by apply keeps_store_call|].
    intros [i|]; [|apply keeps_ret].
    destruct (t1 >? ci_expiresAt i);
      (apply keeps_bind;
       [apply keeps_store_call; intros s Hs; by apply Forall_deleteOne|]);
      intros _; [apply keeps_ret|].
    apply keeps_bind; [by apply keeps_store_call|intros _; apply keeps_ret].
  - unfold post_purchase. cbv zeta.
    match goal with |- context [if ?c then _ else _] => destruct c end;
      [apply keeps_ret|].
    apply keeps_try_catch; [|intros e; apply keeps_ret].
    apply keeps_bind;
      [|intros _; apply keeps_bind;
        [by apply keeps_store_call|intros _; apply keeps_ret]].
    destruct (strict_eq_str (b_paymentMethod b) "cash"); [|apply keeps_ret].
    apply keeps_store_call. intros s Hs. by apply Forall_deleteOne.
Qed.

(** In every store the handlers can build from the empty one, no intent is
    stored under an empty mobile or an empty name: the guard of
    [POST /cash-intent] refuses the values whose text is empty. *)
Theorem reachable_intents_named s i :
  reachable s ->
  i ∈ intents s ->
  ci_mobile i <> "" /\ ci_name i <> "".
Proof.
  intros Hr. revert i. apply Forall_forall.
  induction Hr as [|s q fs cs _ IH]; [by apply Forall_nil|].
  by apply (handle_keeps_named q {| db := s; faults := fs; calls := cs |}).
Qed.

Lemma reachable_intents_named_witness :
  ci_mobile (MkCashIntent "Alice" "9990001111" "482913" 1000 901000) <> ""
  /\ ci_name (MkCashIntent "Alice" "9990001111" "482913" 1000 901000) <> "".
Proof.
  apply (reachable_intents_named
           (db (handle (RequestIntent "482913" 1000 1000 1000 alice)
                  fresh_world).2)
           (MkCashIntent "Alice" "9990001111" "482913" 1000 901000)).
  - apply (reach_step empty_store _ [] []), reach_empty.
  - vm_compute. apply list_elem_of_here.
Defined.
